(** * MemberManagement: tier catalogue, billing views and webhook ingestion

    A shallow embedding of the billing core of the MemberManagement
    application:

    - [alumni/fields/tier.py]   (module [TierField]),
    - [payments/views.py]       (modules [SignupView], [SubscribeView],
                                 [PaymentsTableMixin], [Webhook]),
    - the login redirect rule exercised by
      [custom_auth/tests/test_02_login_redirect.py] (module [LoginRedirect]).

    Python strings are modelled as [string] (the UTF-8 bytes of the text),
    [None]-able values as [option], dictionaries as [gmap], database tables
    as lists of rows, and exceptions as an explicit error result. *)

From Stdlib Require Import ZArith String Ascii List DecimalString.
From Stdlib Require Import PrimFloat SpecFloat FloatOps.
From stdpp Require Import base option strings list gmap.

Open Scope Z_scope.
Open Scope string_scope.

(** ** Python helpers *)

(** A Python [dict] display [{k1: v1, ..., kn: vn}] stores its items from
    left to right, so a key written twice keeps its last value. *)
Definition dict_literal (items : list (string * string)) : gmap string string :=
  foldl (λ d kv, <[kv.1 := kv.2]> d) ∅ items.

(** [d.get(key, default)] *)
Definition dict_get (d : gmap string string) (key default : string) : string :=
  match d !! key with
  | Some v => v
  | None => default
  end.

(** Truth value of an optional string ([None] and the empty string are
    falsy). *)
Definition truthy (o : option string) : bool :=
  match o with
  | None => false
  | Some s => negb (String.eqb s "")
  end.

(** ** [MemberManagement.settings]: the configuration constants read by the
    modelled code.  Their values come from the deployment, so they are the
    fields of a record passed to every function that reads them. *)
Record Settings := {
  STRIPE_CONTRIBUTOR_PRODUCT_ID : string;
  STRIPE_PATRON_PRODUCT_ID : string;
  STRIPE_STARTER_PRODUCT_ID : string;
  STRIPE_WEBHOOK_SECRET : string;
  LOGIN_REDIRECT_URL : string
}.

(** ** [alumni/fields/tier.py] *)
Module TierField.

Definition STARTER : string := "st".
Definition CONTRIBUTOR : string := "co".
Definition PATRON : string := "pa".

Definition STRIPE_IDS : gmap string string :=
  dict_literal
    [ (CONTRIBUTOR, "contributor-membership");
      (STARTER, "starter-membership");
      (PATRON, "patron-membership") ].

(** The items of the [STRIPE_ID_TO_TIER] display, in source order. *)
Definition STRIPE_ID_TO_TIER_items (cfg : Settings) : list (string * string) :=
  [ (* Legacy IDs *)
    ("contributor-membership", CONTRIBUTOR);
    ("patron-membership", PATRON);
    ("starter-membership", STARTER);
    (* New IDs *)
    (STRIPE_CONTRIBUTOR_PRODUCT_ID cfg, CONTRIBUTOR);
    (STRIPE_PATRON_PRODUCT_ID cfg, PATRON);
    (STRIPE_STARTER_PRODUCT_ID cfg, STARTER) ].

Definition STRIPE_ID_TO_TIER (cfg : Settings) : gmap string string :=
  dict_literal (STRIPE_ID_TO_TIER_items cfg).

(** [get_stripe_id]: subscripting raises [KeyError] on a missing key. *)
Definition get_stripe_id (value : string) : option string :=
  STRIPE_IDS !! value.

Definition get_tier_from_stripe_id (cfg : Settings) (stripe_id : string) : string :=
  dict_get (STRIPE_ID_TO_TIER cfg) stripe_id "Unknown".

Definition CHOICES : list (string * string) :=
  [ (CONTRIBUTOR, "Contributor – Standard membership for 39€ p.a.");
    (STARTER, "Starter – Free Membership for 0€ p.a.");
    (PATRON, "Patron – Premium membership for 249€ p.a.") ].

(** The loop of [get_description] over a list of choices: the value of the
    first pair whose key is [value]; falling off the loop returns [None]. *)
Fixpoint first_choice (choices : list (string * string)) (value : string)
    : option string :=
  match choices with
  | [] => None
  | (k, v) :: rest => if String.eqb k value then Some v else first_choice rest value
  end.

Definition get_description (value : string) : option string :=
  first_choice CHOICES value.

End TierField.

(** ** Results of Python calls that may raise *)
Inductive result (A : Type) : Type :=
  | Ok (value : A)
  | Raise (exception : string).
Arguments Ok {A} value.
Arguments Raise {A} exception.

Definition raises {A : Type} (r : result A) : bool :=
  match r with
  | Ok _ => false
  | Raise _ => true
  end.

Definition bind_result {A B : Type} (r : result A) (k : A → result B) : result B :=
  match r with
  | Ok a => k a
  | Raise e => Raise e
  end.

(** A list comprehension [[f(x) for x in l]] whose [f] may raise: the
    first exception, in list order, ends it. *)
Fixpoint comprehension {A B : Type} (f : A → result B) (l : list A)
    : result (list B) :=
  match l with
  | [] => Ok []
  | x :: rest =>
      bind_result (f x) (λ y,
      bind_result (comprehension f rest) (λ ys, Ok (y :: ys)))
  end.

(** [d[key]] on a dictionary with string keys: a missing key raises
    [KeyError], whose text is the quoted key. *)
Definition subscript (d : gmap string string) (key : string) : result string :=
  match d !! key with
  | Some v => Ok v
  | None => Raise ("KeyError: '" ++ key ++ "'")
  end.

(** [str(n)] for a Python [int]. *)
Definition str_int (n : Z) : string := NilZero.string_of_int (Z.to_int n).

(** ** The login redirect rule *)
Module LoginRedirect.

(** Modelled from the spec: the view [custom_auth.views.email_token_login]
    is not among the sources (only its tests are).  The "Login Redirect
    Validator" decides by the origin, scheme and host, that a target
    "resolves to".  Resolution is that of a URL reference against the
    application's own address (served over http or https), as a browser
    following the redirect performs it: surrounding blanks and inner tabs
    and newlines are dropped, a backslash counts as a slash, scheme and
    host are compared in lower case, credentials and port are not part of
    the origin.  Hosts are compared as written: a host that needs
    decoding (percent signs, non-ASCII letters) is taken to name no
    origin the application could share. *)
Record Origin := { scheme : string; host : string }.

Definition code (c : ascii) : nat := nat_of_ascii c.

(** Blanks a URL reader drops. *)
Definition is_c0_or_space (c : ascii) : bool := Nat.leb (code c) 32.

Definition is_tab_or_newline (c : ascii) : bool :=
  Nat.eqb (code c) 9 || Nat.eqb (code c) 10 || Nat.eqb (code c) 13.

Definition is_upper (c : ascii) : bool := Nat.leb 65 (code c) && Nat.leb (code c) 90.
Definition is_lower (c : ascii) : bool := Nat.leb 97 (code c) && Nat.leb (code c) 122.
Definition is_digit (c : ascii) : bool := Nat.leb 48 (code c) && Nat.leb (code c) 57.
Definition is_alpha (c : ascii) : bool := is_upper c || is_lower c.

Definition to_lower (c : ascii) : ascii :=
  if is_upper c then ascii_of_nat (code c + 32) else c.

Fixpoint lowercase (s : string) : string :=
  match s with
  | EmptyString => EmptyString
  | String c rest => String (to_lower c) (lowercase rest)
  end.

Fixpoint mem_char (x : ascii) (s : string) : bool :=
  match s with
  | EmptyString => false
  | String c rest => Ascii.eqb c x || mem_char x rest
  end.

Fixpoint all_chars (p : ascii → bool) (s : string) : bool :=
  match s with
  | EmptyString => true
  | String c rest => p c && all_chars p rest
  end.

Definition is_slash (c : ascii) : bool := Ascii.eqb c "/" || Ascii.eqb c "\".

Fixpoint strip_leading (s : string) : string :=
  match s with
  | EmptyString => EmptyString
  | String c rest => if is_c0_or_space c then strip_leading rest else s
  end.

Fixpoint strip_trailing (s : string) : string :=
  match s with
  | EmptyString => EmptyString
  | String c rest =>
      match strip_trailing rest with
      | EmptyString => if is_c0_or_space c then EmptyString else String c EmptyString
      | kept => String c kept
      end
  end.

Fixpoint remove_tab_newline (s : string) : string :=
  match s with
  | EmptyString => EmptyString
  | String c rest =>
      if is_tab_or_newline c then remove_tab_newline rest
      else String c (remove_tab_newline rest)
  end.

Definition clean (s : string) : string :=
  remove_tab_newline (strip_trailing (strip_leading s)).

(** A scheme is a letter followed by letters, digits, [+], [-] and [.],
    up to a colon; it is read in lower case. *)
Definition is_scheme_char (c : ascii) : bool :=
  is_alpha c || is_digit c || Ascii.eqb c "+" || Ascii.eqb c "-" || Ascii.eqb c ".".

Fixpoint scheme_end (s : string) : option (string * string) :=
  match s with
  | EmptyString => None
  | String c rest =>
      if Ascii.eqb c ":" then Some (EmptyString, rest)
      else if is_scheme_char c then
        match scheme_end rest with
        | Some (sch, after) => Some (String (to_lower c) sch, after)
        | None => None
        end
      else None
  end.

Definition read_scheme (s : string) : option (string * string) :=
  match s with
  | EmptyString => None
  | String c _ => if is_alpha c then scheme_end s else None
  end.

(** The schemes whose references carry an authority even when written
    with backslashes or with too few or too many slashes. *)
Definition is_special (sch : string) : bool :=
  String.eqb sch "http" || String.eqb sch "https" || String.eqb sch "ftp"
  || String.eqb sch "ws" || String.eqb sch "wss".

Fixpoint skip_slashes (s : string) : string :=
  match s with
  | EmptyString => EmptyString
  | String c rest => if is_slash c then skip_slashes rest else s
  end.

(** The authority runs to the first slash, backslash, [?] or [#]. *)
Definition ends_authority (c : ascii) : bool :=
  is_slash c || Ascii.eqb c "?" || Ascii.eqb c "#".

Fixpoint authority_text (s : string) : string :=
  match s with
  | EmptyString => EmptyString
  | String c rest => if ends_authority c then EmptyString else String c (authority_text rest)
  end.

(** The host follows the last [@] of the authority. *)
Fixpoint drop_credentials (s : string) : string :=
  match s with
  | EmptyString => EmptyString
  | String c rest =>
      if mem_char "@" rest then drop_credentials rest
      else if Ascii.eqb c "@" then rest else s
  end.

Fixpoint before_char (x : ascii) (s : string) : string :=
  match s with
  | EmptyString => EmptyString
  | String c rest => if Ascii.eqb c x then EmptyString else String c (before_char x rest)
  end.

Fixpoint after_char (x : ascii) (s : string) : option string :=
  match s with
  | EmptyString => None
  | String c rest => if Ascii.eqb c x then Some rest else after_char x rest
  end.

Definition is_port (o : option string) : bool :=
  match o with
  | None => true
  | Some p => all_chars is_digit p
  end.

(** Characters a domain cannot contain. *)
Definition is_forbidden (c : ascii) : bool :=
  Nat.leb (code c) 32 || Nat.leb 127 (code c)
  || mem_char c "#/:<>?@[\]^|%".

Definition is_domain (h : string) : bool :=
  negb (String.eqb h "") && all_chars (λ c, negb (is_forbidden c)) h.

(** The host of an authority, in lower case: a bracketed address or a
    domain, followed by nothing or by a colon and a port. *)
Definition host_of (authority : string) : option string :=
  let hp := drop_credentials authority in
  match hp with
  | String "[" _ =>
      match after_char "]" hp with
      | Some EmptyString => Some (lowercase hp)
      | Some (String ":" port) =>
          if all_chars is_digit port then Some (lowercase (before_char "]" hp ++ "]"))
          else None
      | _ => None
      end
  | _ =>
      let h := before_char ":" hp in
      if is_port (after_char ":" hp) && is_domain h then Some (lowercase h) else None
  end.

(** What a target resolves to: a path, query or fragment of the
    application itself; an address with a scheme and a host; or something
    with no origin to compare (another kind of scheme, an unreadable
    host). *)
Inductive Resolution :=
  | SamePath
  | At (o : Origin)
  | NoOrigin.

Definition at_authority (sch s : string) : Resolution :=
  match host_of (authority_text (skip_slashes s)) with
  | Some h => At {| scheme := sch; host := h |}
  | None => NoOrigin
  end.

(** A reference without scheme: two leading slashes (or backslashes)
    introduce an authority, anything else stays with the application. *)
Definition relative (app : Origin) (s : string) : Resolution :=
  match s with
  | String c1 (String c2 rest) =>
      if is_slash c1 && is_slash c2 then at_authority (lowercase (scheme app)) rest
      else SamePath
  | _ => SamePath
  end.

(** A reference whose scheme is the application's own is read as a
    relative one; another http-like scheme is followed by an authority
    however many slashes are written. *)
Definition resolve (app : Origin) (target : string) : Resolution :=
  let s := clean target in
  match read_scheme s with
  | Some (sch, rest) =>
      if is_special sch then
        if String.eqb sch (lowercase (scheme app)) then relative app rest
        else at_authority sch rest
      else NoOrigin
  | None => relative app s
  end.

Definition plain (s : string) : bool :=
  all_chars (λ c, negb (is_c0_or_space c)) s.

(** A text that ends an authority: nothing, or something starting with a
    slash, a backslash, [?] or [#]. *)
Definition delimited (rest : string) : bool :=
  match rest with
  | EmptyString => true
  | String c _ => ends_authority c
  end.

Definition same_origin (app o : Origin) : bool :=
  String.eqb (scheme o) (lowercase (scheme app))
  && String.eqb (host o) (lowercase (host app)).

(** The rule itself: an absent or empty target gives the configured
    default, a target that stays with the application or resolves to the
    application's own origin is used as it is, any other is discarded for
    the default. *)
Definition login_redirect (cfg : Settings) (app : Origin) (next : option string) : string :=
  match next with
  | None => LOGIN_REDIRECT_URL cfg
  | Some target =>
      if String.eqb target "" then LOGIN_REDIRECT_URL cfg
      else
        match resolve app target with
        | SamePath => target
        | At o => if same_origin app o then target else LOGIN_REDIRECT_URL cfg
        | NoOrigin => LOGIN_REDIRECT_URL cfg
        end
  end.

End LoginRedirect.

(** ** [payments]: stored records and the payment provider *)

Definition Alumni := nat.

(** A [datetime], as seconds on the clock the server reads. *)
Definition datetime := Z.

Record MembershipInformation := {
  mi_member : option Alumni;
  mi_tier : string;
  mi_customer : option string
}.

Record SubscriptionInformation := {
  si_member : Alumni;
  si_start : option datetime;
  si_end : option datetime;
  si_tier : string
}.

(** A [PaymentIntent] row: the provider's identifier and the stored
    snapshot. *)
Record PaymentIntent := {
  stripe_id : string;
  data : string
}.

(** The tables the modelled views read and write. *)
Record Db := {
  memberships : list MembershipInformation;
  subscriptions : list SubscriptionInformation;
  payment_intents : list PaymentIntent
}.

(** What an operation does besides changing the tables: calls to the
    payment provider's API and lines printed to the console. *)
Inductive Effect :=
  | CreateCustomerCall (a : Alumni)
  | SyncFromStripeCall (a : Alumni)
  | Print (line : string).

Definition is_provider_call (e : Effect) : bool :=
  match e with
  | CreateCustomerCall _ | SyncFromStripeCall _ => true
  | Print _ => false
  end.

Definition provider_calls (trace : list Effect) : list Effect :=
  List.filter is_provider_call trace.

(** The object carried by an event ([event.data.object]). *)
Record StripeObject := {
  id : string;
  payload : string
}.

Record Event := {
  type : string;
  data_object : StripeObject
}.

(** [payments.stripewrapper] and [SubscriptionInformation.sync_from_stripe]
    are not among the sources: what they answer is a parameter of the
    views that call them.  The wrapper's operations return a
    [(result, error)] pair. *)
Record StripeWrapper := {
  create_customer : Alumni → option string * option string;
  make_stripe_event : string → option string → string → option Event * option string;
  _pi_to_dict : StripeObject → string;
  (** the record [sync_from_stripe] returns and the subscription table it
      leaves, from the table it finds *)
  sync_from_stripe :
    Alumni → list SubscriptionInformation →
    option SubscriptionInformation * list SubscriptionInformation
}.

(** The outcome of running a view method: its return value, the tables it
    leaves and the effects it performed, oldest first. *)
Record Run (A : Type) := {
  ret : A;
  db : Db;
  trace : list Effect
}.
Arguments ret {A} _.
Arguments db {A} _.
Arguments trace {A} _.

(** "Active" as the data model defines it: the current time lies in
    [start, end], both ends included, or [end] is null and [start <= now]. *)
Definition active (s : SubscriptionInformation) (now : datetime) : bool :=
  match si_start s, si_end s with
  | Some a, Some b => Z.leb a now && Z.leb now b
  | Some a, None => Z.leb a now
  | None, _ => false
  end.

(** [SubscriptionInformation.create_starter_subscription]
    (payments/models.py) is not among the sources: it is a parameter of
    the view that calls it, a function from the time of the call, the
    member and the tables to the tables it leaves and the effects it
    performs. *)
Definition StarterSubscription : Type :=
  datetime → Alumni → Db → Db * list Effect.

(** Modelled from the spec: what the spec says of
    [create_starter_subscription], whose code is missing.  A starter
    tier "synthesizes a subscription record directly upon tier selection,
    bypassing the payment provider entirely", and that record is active:
    after the call the member has a stored record that is active now, and
    the call made no provider call. *)
Definition synthesizes_active_record (create : StarterSubscription) : Prop :=
  ∀ now a d,
    provider_calls (create now a d).2 = []
    ∧ ∃ s, In s (subscriptions (create now a d).1)
           ∧ si_member s = a ∧ active s now = true.

(** A bound form: the cleaned [tier] field and the errors attached to the
    form as a whole ([form.add_error(None, ...)]). *)
Record Form := {
  cleaned_tier : string;
  non_field_errors : list string
}.

Definition add_error (form : Form) (message : string) : Form :=
  {| cleaned_tier := cleaned_tier form;
     non_field_errors := non_field_errors form ++ [message] |}.

(** [form.save(commit=False)]: an instance carrying the form's fields, not
    yet stored. *)
Definition form_save_uncommitted (form : Form) : MembershipInformation :=
  {| mi_member := None; mi_tier := cleaned_tier form; mi_customer := None |}.

(** [instance.save()] *)
Definition save_membership (instance : MembershipInformation) (d : Db) : Db :=
  {| memberships := memberships d ++ [instance];
     subscriptions := subscriptions d;
     payment_intents := payment_intents d |}.

(** ** [payments/views.py]: [SignupView] *)
Module SignupView.

Definition PROVIDER_ERROR : string :=
  "Something went wrong when talking to our payment service provider. Please try again later or contact support. ".

Definition form_valid (sw : StripeWrapper)
    (create_starter_subscription : StarterSubscription)
    (now : datetime) (alumni : Alumni)
    (form : Form) (d : Db) : Run (option MembershipInformation * Form) :=
  (* Create the stripe customer *)
  let '(customer, err) := create_customer sw alumni in
  match err with
  | Some _ =>
      {| ret := (None, add_error form PROVIDER_ERROR);
         db := d;
         trace := [CreateCustomerCall alumni] |}
  | None =>
      (* store the information *)
      let instance := form_save_uncommitted form in
      let instance :=
        {| mi_member := Some alumni; mi_tier := mi_tier instance;
           mi_customer := customer |} in
      let d := save_membership instance d in
      (* if we selected the starter tier, create subscription information now *)
      let '(d, effects) :=
        if String.eqb (mi_tier instance) TierField.STARTER
        then create_starter_subscription now alumni d
        else (d, []) in
      {| ret := (Some instance, form);
         db := d;
         trace := CreateCustomerCall alumni :: effects |}
  end.

End SignupView.

(** ** [payments/views.py]: [SubscribeView] *)
Module SubscribeView.

(** The rows of [alumni.subscriptioninformation_set.filter(start__lte=now,
    end__gte=now)].  Each lookup is a comparison on the column, and a
    comparison with a null column selects nothing. *)
Definition start__lte (now : datetime) (s : SubscriptionInformation) : bool :=
  match si_start s with
  | Some a => Z.leb a now
  | None => false
  end.

Definition end__gte (now : datetime) (s : SubscriptionInformation) : bool :=
  match si_end s with
  | Some b => Z.leb now b
  | None => false
  end.

Definition active_local_rows (alumni : Alumni) (now : datetime)
    (rows : list SubscriptionInformation) : list SubscriptionInformation :=
  List.filter
    (λ s, Nat.eqb (si_member s) alumni && start__lte now s && end__gte now s)
    rows.

(** [.exists()] *)
Definition query_exists {A : Type} (rows : list A) : bool :=
  match rows with
  | [] => false
  | _ :: _ => true
  end.

Definition with_subscriptions (d : Db) (rows : list SubscriptionInformation) : Db :=
  {| memberships := memberships d;
     subscriptions := rows;
     payment_intents := payment_intents d |}.

Definition should_setup_component (sw : StripeWrapper) (now : datetime)
    (alumni : Alumni) (d : Db) : Run bool :=
  (* Use Django queries to check if any active subscription exists *)
  if query_exists (active_local_rows alumni now (subscriptions d)) then
    {| ret := false; db := d; trace := [] |}
  else
    (* Call the Stripe API with the customer ID and sync with local
       SubscriptionInformation *)
    let '(subscription, rows) := sync_from_stripe sw alumni (subscriptions d) in
    let d := with_subscriptions d rows in
    let t := [SyncFromStripeCall alumni] in
    match subscription with
    | None => {| ret := true; db := d; trace := t |}
    | Some subscription =>
        (* If we now have an active subscription, we do not need to set up
           the component *)
        if match si_start subscription with
           | Some a =>
               Z.leb a now
               && match si_end subscription with
                  | None => true
                  | Some b => Z.leb now b
                  end
           | None => false
           end
        then {| ret := false; db := d; trace := t |}
        (* By default, we should set up the component *)
        else {| ret := true; db := d; trace := t |}
    end.

(** The price identifiers and secret key of [settings] that [form_valid]
    reads; an unset identifier is [None]. *)
Record PriceSettings := {
  STRIPE_CONTRIBUTOR_PRICE_ID : option string;
  STRIPE_PATRON_PRICE_ID : option string;
  STRIPE_STARTER_PRICE_ID : option string;
  STRIPE_SECRET_KEY : string
}.

(** The arguments of one [stripe.checkout.Session.create] call, with the
    API key set just before it. *)
Record CheckoutCall := {
  api_key : string;
  customer : option string;
  payment_method_types : list string;
  mode : string;
  line_items : list (option string * Z);
  success_url : string;
  cancel_url : string
}.

Definition INVALID_TIER : string :=
  "Invalid membership tier selected. Please contact support. ".

Definition CHECKOUT_ERROR : string :=
  "Something went wrong when creating the checkout session. Please try again later or contact support. ".

Definition price_id_map (ps : PriceSettings) : gmap string (option string) :=
  <[TierField.STARTER := STRIPE_STARTER_PRICE_ID ps]>
    (<[TierField.PATRON := STRIPE_PATRON_PRICE_ID ps]>
       (<[TierField.CONTRIBUTOR := STRIPE_CONTRIBUTOR_PRICE_ID ps]> ∅)).

(** [price_id_map.get(tier)] *)
Definition price_id_of (ps : PriceSettings) (tier : string) : option string :=
  match price_id_map ps !! tier with
  | Some price_id => price_id
  | None => None
  end.

(** [form_valid]: [create] stands for [stripe.checkout.Session.create],
    which returns the session's [url] (possibly [None]) or raises;
    [return_url] is the absolute URI of the ["setup_subscription"] route.
    The result is the returned value, the form, and the calls made. *)
Definition form_valid (create : CheckoutCall → result (option string))
    (ps : PriceSettings) (membership : MembershipInformation)
    (return_url : string) (form : Form)
    : option string * Form * list CheckoutCall :=
  (* Create a Stripe portal session for the user to complete subscription *)
  let customer_id := mi_customer membership in
  (* Determine the price ID dynamically based on the tier the user selected *)
  let tier := mi_tier membership in
  let price_id := price_id_of ps tier in
  if negb (truthy price_id) then
    (None, add_error form INVALID_TIER, [])
  else
    (* Create the portal session via the Stripe API directly *)
    let call :=
      {| api_key := STRIPE_SECRET_KEY ps;
         customer := customer_id;
         payment_method_types := ["card"];
         mode := "subscription";
         line_items := [(price_id, 1)];
         success_url := return_url;
         cancel_url := return_url |} in
    let '(portal_url, err) :=
      match create call with
      | Ok url => (url, None)
      | Raise e => (None, Some e)
      end in
    if match err with Some _ => true | None => false end
       || negb (truthy portal_url)
    then (None, add_error form CHECKOUT_ERROR, [call])
    (* Redirect the user to the Stripe portal session *)
    else (portal_url, form, [call]).

End SubscribeView.

(** ** [payments/views.py]: [PaymentsTableMixin] *)
Module PaymentsTableMixin.

Record Plan := { name : string }.
Record Period := { start : Z; end_ : Z }.

(** An invoice line as the provider sends it ([line.type] is
    [line_type]); of its attributes, the description, the plan, the
    period and the quantity may be [None]. *)
Record InvoiceLine := {
  description : option string;
  line_type : string;
  plan : option Plan;
  period : option Period;
  quantity : option Z
}.

(** [value.attr]: on [None] it raises [AttributeError], with this text. *)
Definition attribute {A B : Type} (attr : string) (value : option A) (get : A → B)
    : result B :=
  match value with
  | Some v => Ok (get v)
  | None => Raise ("'NoneType' object has no attribute '" ++ attr ++ "'")
  end.

(** [str] of a quantity, as [format] writes it. *)
Definition str_quantity (q : option Z) : string :=
  match q with
  | Some n => str_int n
  | None => "None"
  end.

(** [format_datetime]: [date_format] stands for Django's
    [formats.date_format] applied to [datetime.fromtimestamp(epoch)],
    which raises for an epoch outside the years [datetime] can hold. *)
Definition format_datetime (date_format : Z → string → result string)
    (epoch : Z) (format : string) : result string :=
  date_format epoch format.

(** [format_description]; the arguments of [format] are evaluated from
    left to right: the plan's name, the start date, the end date. *)
Definition format_description (date_format : Z → string → result string)
    (line : InvoiceLine) : result string :=
  (* if we have a description, return it *)
  match description line with
  | Some d => Ok d
  | None =>
      (* if we have a subscription show {{Name}} x timeframe *)
      if String.eqb (line_type line) "subscription" then
        bind_result (attribute "name" (plan line) name) (λ plan_name,
        bind_result (attribute "start" (period line) start) (λ period_start,
        bind_result (format_datetime date_format period_start "DATE_FORMAT")
          (λ period_start,
        bind_result (attribute "end" (period line) end_) (λ period_end,
        bind_result (format_datetime date_format period_end "DATE_FORMAT")
          (λ period_end,
        let name := plan_name ++ " (" ++ period_start ++ " - " ++ period_end ++ ")" in
        Ok (str_quantity (quantity line) ++ " x " ++ name))))))
      (* we have a normal line item, and there should have been a
         description *)
      else Raise "Non-subscription without description"
  end.

(** The integer nearest to [num / den] ([den > 0]), ties to the even
    one. *)
Definition round_half_even (num den : Z) : Z :=
  let q := num / den in
  let r := num mod den in
  match 2 * r ?= den with
  | Lt => q
  | Gt => q + 1
  | Eq => if Z.even q then q else q + 1
  end.

Definition two_digits (n : Z) : string :=
  if Z.ltb n 10 then "0" ++ str_int n else str_int n.

(** ["%0.2f" % x] for a binary64 [x]: the exact value of [x] rounded to
    hundredths (ties to even), printed with its sign. *)
Definition percent_0_2f (x : float) : string :=
  match Prim2SF x with
  | S754_nan => "nan"
  | S754_infinity s => if s then "-inf" else "inf"
  | S754_zero s => (if s then "-" else "") ++ "0.00"
  | S754_finite s m e =>
      let hundredths :=
        if Z.leb 0 e then Z.pos m * 2 ^ e * 100
        else round_half_even (Z.pos m * 100) (2 ^ (- e)) in
      (if s then "-" else "")
      ++ str_int (hundredths / 100) ++ "." ++ two_digits (hundredths mod 100)
  end.

(** The amount handed to [format_total]: the annotation says [float],
    the invoice table passes the provider's [int]. *)
Inductive number :=
  | PyInt (n : Z)
  | PyFloat (x : float).

(** The text of the [OverflowError] of [int / int]. *)
Definition OVERFLOW : string := "integer division result too large for a float".

(** [n / 100] for an [int] [n]: the binary64 nearest to the exact
    quotient, ties to even, and [OverflowError] when that is beyond the
    largest float.  The quotient is taken with more than 56 bits and a
    sticky bit for its remainder, then rounded once. *)
Definition int_true_div_100 (n : Z) : result float :=
  let k := Z.max 0 (64 - Z.log2 (Z.abs n)) in
  let scaled := Z.abs n * 2 ^ k in
  let q := scaled / 100 in
  let sticky := if Z.eqb (scaled mod 100) 0 then 0 else 1 in
  let m := 2 * q + sticky in
  match binary_normalize prec emax (if Z.ltb n 0 then - m else m) (- (k + 1)) false with
  | S754_infinity _ => Raise OVERFLOW
  | x => Ok (SF2Prim x)
  end.

(** [amount / 100] *)
Definition true_div_100 (amount : number) : result float :=
  match amount with
  | PyInt n => int_true_div_100 n
  | PyFloat x => Ok (x / 100)%float
  end.

(** [format_total(amount, cur)].  The suffix of the ["eur"] branch is
    written here byte for byte as in the source file. *)
Definition format_total (amount : number) (cur : string) : result string :=
  if String.eqb cur "eur" then
    bind_result (true_div_100 amount) (λ q, Ok (percent_0_2f q ++ " â‚¬"))
  else if String.eqb cur "usd" then
    bind_result (true_div_100 amount) (λ q, Ok (percent_0_2f q ++ " $"))
  else Raise ("unknown currency " ++ cur).

(** A non-negative amount of minor units written as major units with
    two decimal places. *)
Definition two_decimals (amount : Z) : string :=
  str_int (amount / 100) ++ "." ++ two_digits (amount mod 100).

(** ["%0.2f" % (amount / 100)] writes the integer [amount] as
    [two_decimals] does. *)
Definition two_decimals_exact (amount : Z) : bool :=
  match int_true_div_100 amount with
  | Ok q => String.eqb (percent_0_2f q) (two_decimals amount)
  | Raise _ => false
  end.

(** [f] holds of [count] consecutive integers from [first] on. *)
Fixpoint all_from (f : Z → bool) (first : Z) (count : nat) : bool :=
  match count with
  | O => true
  | S count => f first && all_from f (first + 1) count
  end.

Definition two_decimals_exact_below (bound : Z) : bool :=
  all_from two_decimals_exact 0 (Z.to_nat bound).

(** A raw invoice as [stripewrapper.get_payment_table] returns it: a
    dictionary, of which a key that is missing is [None] here. *)
Record Invoice := {
  iv_lines : option (list InvoiceLine);
  iv_date : option Z;
  iv_total : option (number * string);
  iv_paid : option bool;
  iv_closed : option bool;
  iv_upcoming : option bool
}.

(** [iv[key]]: a missing key raises [KeyError], whose text is the quoted
    key. *)
Definition item {A : Type} (key : string) (value : option A) : result A :=
  match value with
  | Some v => Ok v
  | None => Raise ("'" ++ key ++ "'")
  end.

(** A row of the invoice table shown to the member. *)
Record InvoiceRow := {
  row_lines : list string;
  row_date : string;
  row_total : string;
  row_paid : bool;
  row_closed : bool;
  row_upcoming : bool
}.

(** What [get_invoice_table] returns as its first component: the rows it
    built, or what the wrapper gave it when no rows were built. *)
Inductive InvoiceTable :=
  | Rows (rows : list InvoiceRow)
  | RawInvoices (invoices : option (list Invoice)).

Definition GENERIC_ERROR : string :=
  "Something went wrong. Please try again later or contact support. ".

(** One element of the comprehension in [get_invoice_table]; the items of
    the display are evaluated in order: lines, date, total, paid, closed,
    upcoming. *)
Definition invoice_row (date_format : Z → string → result string) (iv : Invoice)
    : result InvoiceRow :=
  bind_result (item "lines" (iv_lines iv)) (λ lines,
  bind_result (comprehension (format_description date_format) lines) (λ lines,
  bind_result (item "date" (iv_date iv)) (λ date,
  bind_result (format_datetime date_format date "DATETIME_FORMAT") (λ date,
  bind_result (item "total" (iv_total iv)) (λ total,
  bind_result (format_total total.1 total.2) (λ total,
  bind_result (item "paid" (iv_paid iv)) (λ paid,
  bind_result (item "closed" (iv_closed iv)) (λ closed,
  bind_result (item "upcoming" (iv_upcoming iv)) (λ upcoming,
  Ok {| row_lines := lines; row_date := date; row_total := total;
        row_paid := paid; row_closed := closed;
        row_upcoming := upcoming |}))))))))).

(** [get_invoice_table]: [get_payment_table] stands for the wrapper's
    operation of that name.  Whatever is raised while the rows are built
    is caught and its text returned as the error. *)
Definition get_invoice_table
    (get_payment_table : string → option (list Invoice) * option string)
    (date_format : Z → string → result string) (customer : string)
    : InvoiceTable * option string :=
  let '(invoices, err) := get_payment_table customer in
  match err with
  | None =>
      match invoices with
      | None => (RawInvoices invoices, Some "'NoneType' object is not iterable")
      | Some ivs =>
          match comprehension (invoice_row date_format) ivs with
          | Ok rows => (Rows rows, None)
          | Raise e => (RawInvoices invoices, Some e)
          end
      end
  | Some _ => (RawInvoices invoices, Some GENERIC_ERROR)
  end.

(** A line [format_description] can describe: it has a description, or it
    is a subscription line with a plan and a period whose two dates the
    date formatter accepts. *)
Definition describable (date_format : Z → string → result string)
    (line : InvoiceLine) : Prop :=
  description line ≠ None
  ∨ (line_type line = "subscription" ∧ plan line ≠ None
     ∧ ∃ p, period line = Some p
            ∧ raises (date_format (start p) "DATE_FORMAT") = false
            ∧ raises (date_format (end_ p) "DATE_FORMAT") = false).

(** An invoice all of whose parts can be shown: every key is there, every
    line can be described, the date can be formatted, the currency is
    euro or dollar and the amount can be divided. *)
Definition showable (date_format : Z → string → result string)
    (iv : Invoice) : Prop :=
  (∃ lines, iv_lines iv = Some lines ∧ Forall (describable date_format) lines)
  ∧ (∃ date, iv_date iv = Some date
             ∧ raises (date_format date "DATETIME_FORMAT") = false)
  ∧ (∃ amount cur, iv_total iv = Some (amount, cur)
                   ∧ (cur = "eur" ∨ cur = "usd")
                   ∧ raises (true_div_100 amount) = false)
  ∧ iv_paid iv ≠ None ∧ iv_closed iv ≠ None ∧ iv_upcoming iv ≠ None.

(** The double quote character. *)
Definition dquote : string := String "034"%char EmptyString.

(** [format_method]: [source] maps each key to the text [str.format]
    writes for its value. *)
Definition format_method (source : gmap string string) : result string :=
  bind_result (subscript source "kind") (λ kind,
  if String.eqb kind "card" then
    bind_result (subscript source "brand") (λ brand,
    bind_result (subscript source "last4") (λ last4,
    bind_result (subscript source "exp_month") (λ exp_month,
    bind_result (subscript source "exp_year") (λ exp_year,
    Ok (brand ++ " Card ending in " ++ last4 ++ " (valid until "
        ++ exp_month ++ "/" ++ exp_year ++ ")")))))
  else if String.eqb kind "sepa" then
    bind_result (subscript source "last4") (λ last4,
    bind_result (subscript source "mandate_url") (λ mandate_url,
    bind_result (subscript source "mandate_reference") (λ mandate_reference,
    Ok ("Bank Account ending in " ++ last4 ++ " (<a href=" ++ dquote
        ++ mandate_url ++ dquote ++ " target=" ++ dquote ++ "_blank" ++ dquote
        ++ ">SEPA Mandate Reference " ++ mandate_reference ++ "</a>)"))))
  else Ok "Unknown Payment Method. Please contact support. ").

(** What [get_method_table] returns as its first component. *)
Inductive MethodTable :=
  | Methods (descriptions : list string)
  | RawMethods (methods : option (list (gmap string string))).

(** [get_method_table]: nothing is caught here, so an exception of
    [format_method], or of iterating [None], leaves the function. *)
Definition get_method_table
    (get_methods_table : string → option (list (gmap string string)) * option string)
    (customer : string) : result (MethodTable * option string) :=
  let '(methods, err) := get_methods_table customer in
  match err with
  | None =>
      match methods with
      | None => Raise "TypeError: 'NoneType' object is not iterable"
      | Some ms =>
          bind_result (comprehension format_method ms) (λ descriptions,
          Ok (Methods descriptions, None))
      end
  | Some _ => Ok (RawMethods methods, Some GENERIC_ERROR)
  end.

End PaymentsTableMixin.

(** ** [payments/views.py]: [stripe_webhook] *)
Module Webhook.

Record HttpRequest := {
  body : string;
  HTTP_STRIPE_SIGNATURE : option string
}.

(** Status codes of [HttpResponse()] and [HttpResponseBadRequest()]. *)
Definition HttpResponse : Z := 200.
Definition HttpResponseBadRequest : Z := 400.

Definition has_id (i : string) (row : PaymentIntent) : bool :=
  String.eqb (stripe_id row) i.

(** The row an upsert of identifier [i] stores, and what it makes of an
    existing row. *)
Definition fresh (i snapshot : string) : PaymentIntent :=
  {| stripe_id := i; data := snapshot |}.

Definition refresh (i snapshot : string) (row : PaymentIntent) : PaymentIntent :=
  if has_id i row
  then {| stripe_id := stripe_id row; data := snapshot |}
  else row.

(** [PaymentIntent.objects.update_or_create(stripe_id=i, defaults={"data": snapshot})]:
    the row with that identifier gets the snapshot, a missing row is
    created, and several matching rows raise. *)
Definition update_or_create (i snapshot : string) (rows : list PaymentIntent)
    : result (list PaymentIntent) :=
  match List.filter (has_id i) rows with
  | [] => Ok (rows ++ [fresh i snapshot])%list
  | [_] => Ok (List.map (refresh i snapshot) rows)
  | _ :: _ :: _ => Raise "MultipleObjectsReturned"
  end.

Definition with_payment_intents (d : Db) (rows : list PaymentIntent) : Db :=
  {| memberships := memberships d;
     subscriptions := subscriptions d;
     payment_intents := rows |}.

Definition stripe_webhook (sw : StripeWrapper) (cfg : Settings)
    (request : HttpRequest) (d : Db) : Run (result Z) :=
  let payload := body request in
  let sig_header := HTTP_STRIPE_SIGNATURE request in
  let '(event, error) :=
    make_stripe_event sw payload sig_header (STRIPE_WEBHOOK_SECRET cfg) in
  if truthy error then
    {| ret := Ok HttpResponseBadRequest;
       db := d;
       trace := [Print (default "" error)] |}
  else
    match event with
    | None =>
        {| ret := Raise "AttributeError"; db := d; trace := [] |}
    | Some event =>
        (* Handle the event *)
        if String.prefix "payment_intent." (type event) then
          let payment_intent := data_object event in
          (* Update the local database *)
          match update_or_create (id payment_intent)
                  (_pi_to_dict sw payment_intent) (payment_intents d) with
          | Ok rows =>
              {| ret := Ok HttpResponse;
                 db := with_payment_intents d rows;
                 trace := [] |}
          | Raise e => {| ret := Raise e; db := d; trace := [] |}
          end
        else {| ret := Ok HttpResponse; db := d; trace := [] |}
    end.

(** What [stripewrapper.make_stripe_event] answers for a request. *)
Definition verified (sw : StripeWrapper) (cfg : Settings) (request : HttpRequest)
    : option Event * option string :=
  make_stripe_event sw (body request) (HTTP_STRIPE_SIGNATURE request)
    (STRIPE_WEBHOOK_SECRET cfg).

End Webhook.

(** ** [payments/views.py]: [PaymentsView] *)
Module PaymentsView.

Definition PORTAL_ERROR : string :=
  "Something went wrong when trying to redirect you to the payment portal. Please try again later or contact support. ".

(** [get_redirect_url]: [reverse] and [build_absolute_uri] are Django's,
    [get_customer_portal_url] the wrapper's; [customer] is the member's
    [membership.customer].  The result is the returned URL, the messages
    added to the request and the [(customer, return_url)] arguments of the
    provider calls made. *)
Definition get_redirect_url (reverse build_absolute_uri : string → string)
    (get_customer_portal_url : string → string → option string * option string)
    (customer : option string)
    : option string * list string * list (string * string) :=
  match customer with
  (* if the user is not a member, redirect to the signup page *)
  | None => (Some (reverse "setup_signup"), [], [])
  | Some customer =>
      (* otherwise, redirect to the stripe customer portal *)
      let portal_url := build_absolute_uri (reverse "portal") in
      let '(url, err) := get_customer_portal_url customer portal_url in
      match err with
      | Some _ => (Some (reverse "portal"), [PORTAL_ERROR], [(customer, portal_url)])
      | None => (url, [], [(customer, portal_url)])
      end
  end.

End PaymentsView.

(** ** Sequences of webhook deliveries *)

(** The requests are handled one after the other; a request whose handling
    raises leaves the tables as they were. *)
Fixpoint deliver_all (sw : StripeWrapper) (cfg : Settings)
    (requests : list Webhook.HttpRequest) (d : Db) : list (result Z) * Db :=
  match requests with
  | [] => ([], d)
  | request :: rest =>
      let run := Webhook.stripe_webhook sw cfg request d in
      let '(responses, d') := deliver_all sw cfg rest (db run) in
      (ret run :: responses, d')
  end.

(** The snapshot stored for an identifier: that of the first row holding
    it. *)
Fixpoint snapshot_of (i : string) (rows : list PaymentIntent) : option string :=
  match rows with
  | [] => None
  | row :: rest => if Webhook.has_id i row then Some (data row) else snapshot_of i rest
  end.

(** The snapshot the latest verified payment-intent event for identifier
    [j] among [requests] carries, or [current] when there is none. *)
Fixpoint latest_snapshot (sw : StripeWrapper) (cfg : Settings)
    (requests : list Webhook.HttpRequest) (j : string) (current : option string)
    : option string :=
  match requests with
  | [] => current
  | request :: rest =>
      latest_snapshot sw cfg rest j
        match Webhook.verified sw cfg request with
        | (Some event, error) =>
            if negb (truthy error)
               && String.prefix "payment_intent." (type event)
               && String.eqb (id (data_object event)) j
            then Some (_pi_to_dict sw (data_object event))
            else current
        | (None, _) => current
        end
  end.

(** ** Sample inputs *)

Definition example_settings : Settings :=
  {| STRIPE_CONTRIBUTOR_PRODUCT_ID := "prod_contributor";
     STRIPE_PATRON_PRODUCT_ID := "prod_patron";
     STRIPE_STARTER_PRODUCT_ID := "prod_starter";
     STRIPE_WEBHOOK_SECRET := "whsec_test";
     LOGIN_REDIRECT_URL := "/" |}.

Definition example_app : LoginRedirect.Origin :=
  {| LoginRedirect.scheme := "https"; LoginRedirect.host := "members.example.org" |}.

Definition empty_db : Db :=
  {| memberships := []; subscriptions := []; payment_intents := [] |}.

Definition example_event : Event :=
  {| type := "payment_intent.succeeded";
     data_object := {| id := "pi_1"; payload := "{amount: 3900}" |} |}.

Definition example_other_event : Event :=
  {| type := "customer.created";
     data_object := {| id := "cus_1"; payload := "{}" |} |}.

(** A provider that answers every call: customers are created, requests
    signed ["good"] verify to [example_event], requests signed ["other"]
    to [example_other_event], anything else fails verification, and no
    subscription exists on the provider's side. *)
Definition example_wrapper : StripeWrapper :=
  {| create_customer := λ _, (Some "cus_1", None);
     make_stripe_event := λ _ sig_header _,
       match sig_header with
       | Some "good" => (Some example_event, None)
       | Some "other" => (Some example_other_event, None)
       | _ => (None, Some "No signatures found matching the expected signature for payload")
       end;
     _pi_to_dict := payload;
     sync_from_stripe := λ _ rows, (None, rows) |}.

(** A provider whose customer creation fails. *)
Definition failing_wrapper : StripeWrapper :=
  {| create_customer := λ _, (None, Some "Connection refused");
     make_stripe_event := make_stripe_event example_wrapper;
     _pi_to_dict := payload;
     sync_from_stripe := λ _ rows, (None, rows) |}.

Definition starter_form : Form :=
  {| cleaned_tier := TierField.STARTER; non_field_errors := [] |}.

(** A starter-subscription helper that stores an open-ended starter
    record starting at the time of the call, and calls nothing. *)
Definition example_starter_subscription : StarterSubscription :=
  λ now a d,
    ({| memberships := memberships d;
        subscriptions :=
          subscriptions d ++
          [ {| si_member := a; si_start := Some now; si_end := None;
               si_tier := TierField.STARTER |} ];
        payment_intents := payment_intents d |},
     []).

(** A table holding one open-ended record of alumni [1], started at time
    [0]. *)
Definition starter_db : Db :=
  {| memberships := [];
     subscriptions :=
       [ {| si_member := 1%nat; si_start := Some 0; si_end := None;
            si_tier := TierField.STARTER |} ];
     payment_intents := [] |}.

(** A date formatter that, like [datetime], knows no year beyond 9999. *)
Definition example_date_format (epoch : Z) (format : string) : result string :=
  if Z.leb 253402300800 epoch then Raise "year 10000 is out of range"
  else Ok ("day " ++ str_int (epoch / 86400)).

Definition example_subscription_line : PaymentsTableMixin.InvoiceLine :=
  {| PaymentsTableMixin.description := None;
     PaymentsTableMixin.line_type := "subscription";
     PaymentsTableMixin.plan := Some {| PaymentsTableMixin.name := "Contributor" |};
     PaymentsTableMixin.period :=
       Some {| PaymentsTableMixin.start := 0; PaymentsTableMixin.end_ := 31536000 |};
     PaymentsTableMixin.quantity := Some 1 |}.

Definition example_described_line : PaymentsTableMixin.InvoiceLine :=
  {| PaymentsTableMixin.description := Some "Donation";
     PaymentsTableMixin.line_type := "invoiceitem";
     PaymentsTableMixin.plan := None;
     PaymentsTableMixin.period :=
       Some {| PaymentsTableMixin.start := 0; PaymentsTableMixin.end_ := 0 |};
     PaymentsTableMixin.quantity := Some 1 |}.

Definition example_bare_line : PaymentsTableMixin.InvoiceLine :=
  {| PaymentsTableMixin.description := None;
     PaymentsTableMixin.line_type := "invoiceitem";
     PaymentsTableMixin.plan := None;
     PaymentsTableMixin.period :=
       Some {| PaymentsTableMixin.start := 0; PaymentsTableMixin.end_ := 0 |};
     PaymentsTableMixin.quantity := Some 1 |}.

Definition example_prices : SubscribeView.PriceSettings :=
  {| SubscribeView.STRIPE_CONTRIBUTOR_PRICE_ID := Some "price_co";
     SubscribeView.STRIPE_PATRON_PRICE_ID := Some "price_pa";
     SubscribeView.STRIPE_STARTER_PRICE_ID := None;
     SubscribeView.STRIPE_SECRET_KEY := "sk_test" |}.

(** A checkout endpoint that answers every request with a session URL,
    and one that always raises. *)
Definition example_create (call : SubscribeView.CheckoutCall) : result (option string) :=
  Ok (Some "https://checkout.stripe.com/c/pay/cs_test_1").

Definition failing_create (call : SubscribeView.CheckoutCall) : result (option string) :=
  Raise "Invalid API Key provided: sk_test".

Definition patron_membership : MembershipInformation :=
  {| mi_member := Some 1%nat; mi_tier := TierField.PATRON;
     mi_customer := Some "cus_1" |}.

Definition empty_form : Form :=
  {| cleaned_tier := ""; non_field_errors := [] |}.

Definition example_card : gmap string string :=
  <["kind" := "card"]> (<["brand" := "Visa"]> (<["last4" := "4242"]>
    (<["exp_month" := "12"]> (<["exp_year" := "2030"]> ∅)))).

Definition example_sepa : gmap string string :=
  <["kind" := "sepa"]> (<["last4" := "3000"]>
    (<["mandate_url" := "https://hooks.stripe.com/mandate/1"]>
       (<["mandate_reference" := "ABC123"]> ∅))).

Definition example_wallet : gmap string string :=
  <["kind" := "paypal"]> ∅.

(** A card whose expiry year is missing. *)
Definition broken_card : gmap string string :=
  <["kind" := "card"]> (<["brand" := "Visa"]> (<["last4" := "4242"]>
    (<["exp_month" := "12"]> ∅))).

Definition example_invoice : PaymentsTableMixin.Invoice :=
  {| PaymentsTableMixin.iv_lines :=
       Some [example_subscription_line; example_described_line];
     PaymentsTableMixin.iv_date := Some 86400;
     PaymentsTableMixin.iv_total := Some (PaymentsTableMixin.PyInt 3900, "usd");
     PaymentsTableMixin.iv_paid := Some true;
     PaymentsTableMixin.iv_closed := Some true;
     PaymentsTableMixin.iv_upcoming := Some false |}.

(** An invoice in a currency the table cannot show. *)
Definition sterling_invoice : PaymentsTableMixin.Invoice :=
  {| PaymentsTableMixin.iv_lines := Some [example_described_line];
     PaymentsTableMixin.iv_date := Some 0;
     PaymentsTableMixin.iv_total := Some (PaymentsTableMixin.PyInt 100, "gbp");
     PaymentsTableMixin.iv_paid := Some false;
     PaymentsTableMixin.iv_closed := Some false;
     PaymentsTableMixin.iv_upcoming := Some true |}.

(** Subscription lines without description: one without plan, one whose
    period ends beyond the last year [datetime] can hold, one without
    period and one without quantity. *)
Definition planless_line : PaymentsTableMixin.InvoiceLine :=
  {| PaymentsTableMixin.description := None;
     PaymentsTableMixin.line_type := "subscription";
     PaymentsTableMixin.plan := None;
     PaymentsTableMixin.period :=
       Some {| PaymentsTableMixin.start := 0; PaymentsTableMixin.end_ := 31536000 |};
     PaymentsTableMixin.quantity := Some 1 |}.

Definition endless_line : PaymentsTableMixin.InvoiceLine :=
  {| PaymentsTableMixin.description := None;
     PaymentsTableMixin.line_type := "subscription";
     PaymentsTableMixin.plan := Some {| PaymentsTableMixin.name := "Contributor" |};
     PaymentsTableMixin.period :=
       Some {| PaymentsTableMixin.start := 0; PaymentsTableMixin.end_ := 253402300800 |};
     PaymentsTableMixin.quantity := Some 1 |}.

Definition periodless_line : PaymentsTableMixin.InvoiceLine :=
  {| PaymentsTableMixin.description := None;
     PaymentsTableMixin.line_type := "subscription";
     PaymentsTableMixin.plan := Some {| PaymentsTableMixin.name := "Contributor" |};
     PaymentsTableMixin.period := None;
     PaymentsTableMixin.quantity := Some 1 |}.

Definition uncounted_line : PaymentsTableMixin.InvoiceLine :=
  {| PaymentsTableMixin.description := None;
     PaymentsTableMixin.line_type := "subscription";
     PaymentsTableMixin.plan := Some {| PaymentsTableMixin.name := "Contributor" |};
     PaymentsTableMixin.period :=
       Some {| PaymentsTableMixin.start := 0; PaymentsTableMixin.end_ := 31536000 |};
     PaymentsTableMixin.quantity := None |}.

(** An invoice dated beyond the last year [datetime] can hold. *)
Definition far_invoice : PaymentsTableMixin.Invoice :=
  {| PaymentsTableMixin.iv_lines := Some [example_described_line];
     PaymentsTableMixin.iv_date := Some 253402300800;
     PaymentsTableMixin.iv_total := Some (PaymentsTableMixin.PyInt 3900, "usd");
     PaymentsTableMixin.iv_paid := Some true;
     PaymentsTableMixin.iv_closed := Some true;
     PaymentsTableMixin.iv_upcoming := Some false |}.

(** * Properties *)

(** ** Facts about dictionary displays *)

Lemma dict_literal_snoc (l : list (string * string)) (k v : string) :
  dict_literal (l ++ [(k, v)]) = <[k := v]> (dict_literal l).
Proof. unfold dict_literal. by rewrite foldl_app. Qed.

(** A display is the map of its reversed item list (stdpp's [list_to_map]
    keeps the first binding of a key, Python the last). *)
Lemma dict_literal_list_to_map (l : list (string * string)) :
  dict_literal l = list_to_map (reverse l).
Proof.
  induction l as [|[k v] l IH] using rev_ind; [done|].
  rewrite dict_literal_snoc, reverse_snoc. simpl. by rewrite IH.
Qed.

Lemma dict_literal_lookup_None (l : list (string * string)) (k : string) :
  dict_literal l !! k = None ↔ k ∉ l.*1.
Proof.
  rewrite dict_literal_list_to_map. split.
  - intros H Hin. apply not_elem_of_list_to_map_2 in H. apply H.
    rewrite fmap_reverse. by apply elem_of_reverse.
  - intros H. apply not_elem_of_list_to_map_1. intros Hin. apply H.
    rewrite fmap_reverse in Hin. by apply (proj1 (elem_of_reverse _ _)) in Hin.
Qed.

Lemma dict_literal_lookup_elem (l : list (string * string)) (k v : string) :
  dict_literal l !! k = Some v → (k, v) ∈ l.
Proof.
  rewrite dict_literal_list_to_map. intros H.
  apply elem_of_list_to_map_2 in H. by apply (proj1 (elem_of_reverse _ _)) in H.
Qed.

Lemma dict_literal_lookup_NoDup (l : list (string * string)) (k v : string) :
  NoDup l.*1 → (k, v) ∈ l → dict_literal l !! k = Some v.
Proof.
  intros Hnd Hin. rewrite dict_literal_list_to_map.
  apply elem_of_list_to_map_1.
  - by rewrite fmap_reverse, reverse_Permutation.
  - by apply elem_of_reverse.
Qed.

(** The last item of a display always wins. *)
Lemma dict_literal_lookup_last (l : list (string * string)) (k v : string) :
  dict_literal (l ++ [(k, v)]) !! k = Some v.
Proof. rewrite dict_literal_snoc. apply lookup_insert_eq. Qed.

(** ** The tier catalogue *)

Lemma dict_get_elem (l : list (string * string)) (k default : string) :
  k ∈ l.*1 → (k, dict_get (dict_literal l) k default) ∈ l.
Proof.
  intros Hin. unfold dict_get.
  destruct (dict_literal l !! k) as [v|] eqn:E.
  - by apply dict_literal_lookup_elem.
  - apply dict_literal_lookup_None in E. contradiction.
Qed.

(** Whatever the configuration, the starter product identifier (the last
    item of the display) maps to the starter tier. *)
Lemma get_tier_from_stripe_id_starter (cfg : Settings) :
  TierField.get_tier_from_stripe_id cfg (STRIPE_STARTER_PRODUCT_ID cfg)
  = TierField.STARTER.
Proof.
  unfold TierField.get_tier_from_stripe_id, dict_get, TierField.STRIPE_ID_TO_TIER.
  change (TierField.STRIPE_ID_TO_TIER_items cfg)
    with ([ ("contributor-membership", TierField.CONTRIBUTOR);
            ("patron-membership", TierField.PATRON);
            ("starter-membership", TierField.STARTER);
            (STRIPE_CONTRIBUTOR_PRODUCT_ID cfg, TierField.CONTRIBUTOR);
            (STRIPE_PATRON_PRODUCT_ID cfg, TierField.PATRON) ]
          ++ [ (STRIPE_STARTER_PRODUCT_ID cfg, TierField.STARTER) ])%list.
  by rewrite dict_literal_lookup_last.
Qed.

(** Every value of the display is a tier code, never the sentinel. *)
Lemma STRIPE_ID_TO_TIER_items_tier (cfg : Settings) (k v : string) :
  (k, v) ∈ TierField.STRIPE_ID_TO_TIER_items cfg →
  v ∈ [TierField.CONTRIBUTOR; TierField.PATRON; TierField.STARTER].
Proof.
  unfold TierField.STRIPE_ID_TO_TIER_items. intros H.
  repeat (apply elem_of_cons in H as [H|H]; [inversion H; subst; set_solver|]).
  by apply elem_of_nil in H.
Qed.

Lemma STRIPE_ID_TO_TIER_inserts (cfg : Settings) :
  TierField.STRIPE_ID_TO_TIER cfg
  = <[STRIPE_STARTER_PRODUCT_ID cfg := "st"]>
      (<[STRIPE_PATRON_PRODUCT_ID cfg := "pa"]>
         (<[STRIPE_CONTRIBUTOR_PRODUCT_ID cfg := "co"]>
            (<["starter-membership" := "st"]>
               (<["patron-membership" := "pa"]>
                  (<["contributor-membership" := "co"]> ∅))))).
Proof. reflexivity. Qed.

(** C7: [get_tier_from_stripe_id] is total (a function from strings to
    strings: [dict.get] with a default cannot raise).  An identifier that
    is none of the three legacy aliases and none of the three configured
    product identifiers gives the sentinel ["Unknown"]; each of the six
    gives a tier code.  The configured starter, patron and contributor
    product identifiers give ["st"], ["pa"] and ["co"], and the aliases
    ["starter-membership"], ["patron-membership"] and
    ["contributor-membership"] give ["st"], ["pa"] and ["co"], each of
    them unless the configuration assigns the same identifier to another
    tier further down the mapping. *)
Theorem get_tier_from_stripe_id_total (cfg : Settings) (stripe_id : string) :
  (stripe_id ∉ [ "contributor-membership"; "patron-membership"; "starter-membership";
                 STRIPE_CONTRIBUTOR_PRODUCT_ID cfg; STRIPE_PATRON_PRODUCT_ID cfg;
                 STRIPE_STARTER_PRODUCT_ID cfg ] →
     TierField.get_tier_from_stripe_id cfg stripe_id = "Unknown")
  ∧ (stripe_id ∈ [ "contributor-membership"; "patron-membership"; "starter-membership";
                   STRIPE_CONTRIBUTOR_PRODUCT_ID cfg; STRIPE_PATRON_PRODUCT_ID cfg;
                   STRIPE_STARTER_PRODUCT_ID cfg ] →
     TierField.get_tier_from_stripe_id cfg stripe_id ∈ ["co"; "pa"; "st"])
  ∧ TierField.get_tier_from_stripe_id cfg (STRIPE_STARTER_PRODUCT_ID cfg) = "st"
  ∧ (STRIPE_PATRON_PRODUCT_ID cfg ≠ STRIPE_STARTER_PRODUCT_ID cfg →
     TierField.get_tier_from_stripe_id cfg (STRIPE_PATRON_PRODUCT_ID cfg) = "pa")
  ∧ (STRIPE_CONTRIBUTOR_PRODUCT_ID cfg ≠ STRIPE_PATRON_PRODUCT_ID cfg →
     STRIPE_CONTRIBUTOR_PRODUCT_ID cfg ≠ STRIPE_STARTER_PRODUCT_ID cfg →
     TierField.get_tier_from_stripe_id cfg (STRIPE_CONTRIBUTOR_PRODUCT_ID cfg) = "co")
  ∧ (STRIPE_CONTRIBUTOR_PRODUCT_ID cfg ≠ "starter-membership" →
     STRIPE_PATRON_PRODUCT_ID cfg ≠ "starter-membership" →
     TierField.get_tier_from_stripe_id cfg "starter-membership" = "st")
  ∧ (STRIPE_CONTRIBUTOR_PRODUCT_ID cfg ≠ "patron-membership" →
     STRIPE_STARTER_PRODUCT_ID cfg ≠ "patron-membership" →
     TierField.get_tier_from_stripe_id cfg "patron-membership" = "pa")
  ∧ (STRIPE_PATRON_PRODUCT_ID cfg ≠ "contributor-membership" →
     STRIPE_STARTER_PRODUCT_ID cfg ≠ "contributor-membership" →
     TierField.get_tier_from_stripe_id cfg "contributor-membership" = "co").
Proof.
  split.
  { intros Hnot. unfold TierField.get_tier_from_stripe_id, dict_get,
      TierField.STRIPE_ID_TO_TIER.
    by rewrite (proj2 (dict_literal_lookup_None
                         (TierField.STRIPE_ID_TO_TIER_items cfg) stripe_id) Hnot). }
  split.
  { intros Hin.
    pose proof (dict_get_elem (TierField.STRIPE_ID_TO_TIER_items cfg) stripe_id
                  "Unknown" Hin) as Hel.
    apply STRIPE_ID_TO_TIER_items_tier in Hel.
    unfold TierField.get_tier_from_stripe_id, TierField.STRIPE_ID_TO_TIER.
    revert Hel. generalize (dict_get (dict_literal
                              (TierField.STRIPE_ID_TO_TIER_items cfg))
                              stripe_id "Unknown").
    intros tier Hel.
    repeat (apply elem_of_cons in Hel as [->|Hel];
            [apply (bool_decide_unpack _); by vm_compute|]).
    by apply elem_of_nil in Hel. }
  unfold TierField.get_tier_from_stripe_id, dict_get.
  rewrite STRIPE_ID_TO_TIER_inserts.
  split; [by rewrite lookup_insert_eq|].
  split.
  { intros Hps. rewrite lookup_insert_ne by congruence.
    by rewrite lookup_insert_eq. }
  split.
  { intros Hcp Hcs. rewrite !lookup_insert_ne by congruence.
    by rewrite lookup_insert_eq. }
  split.
  { intros Hc Hp.
    destruct (decide (STRIPE_STARTER_PRODUCT_ID cfg = "starter-membership"))
      as [->|Hs]; [by rewrite lookup_insert_eq|].
    rewrite !lookup_insert_ne by congruence. by rewrite lookup_insert_eq. }
  split.
  { intros Hc Hs. rewrite lookup_insert_ne by congruence.
    destruct (decide (STRIPE_PATRON_PRODUCT_ID cfg = "patron-membership"))
      as [->|Hp]; [by rewrite lookup_insert_eq|].
    rewrite !lookup_insert_ne by done. by rewrite lookup_insert_eq. }
  intros Hp Hs. rewrite !lookup_insert_ne by congruence.
  destruct (decide (STRIPE_CONTRIBUTOR_PRODUCT_ID cfg = "contributor-membership"))
    as [->|Hc]; [by rewrite lookup_insert_eq|].
  rewrite !lookup_insert_ne by done. by rewrite lookup_insert_eq.
Qed.

Lemma get_tier_from_stripe_id_total_witness :
  TierField.get_tier_from_stripe_id example_settings "prod_patron" = "pa"
  ∧ TierField.get_tier_from_stripe_id example_settings "prod_contributor" = "co"
  ∧ TierField.get_tier_from_stripe_id example_settings "contributor-membership" = "co"
  ∧ TierField.get_tier_from_stripe_id example_settings "price_unlisted" = "Unknown".
Proof.
  split; [|split; [|split]].
  - apply (proj1 (proj2 (proj2 (proj2
             (get_tier_from_stripe_id_total example_settings ""))))).
    discriminate.
  - apply (proj1 (proj2 (proj2 (proj2 (proj2
             (get_tier_from_stripe_id_total example_settings "")))))); discriminate.
  - apply (proj2 (proj2 (proj2 (proj2 (proj2 (proj2 (proj2
             (get_tier_from_stripe_id_total example_settings ""))))))));
      discriminate.
  - apply (proj1 (get_tier_from_stripe_id_total example_settings "price_unlisted")).
    apply (bool_decide_unpack _). vm_compute. exact I.
Defined.

(** ** The login redirect rule *)

Section LoginRedirectFacts.

Import LoginRedirect.

Lemma all_chars_app (p : ascii → bool) (s1 s2 : string) :
  all_chars p (s1 ++ s2) = all_chars p s1 && all_chars p s2.
Proof.
  induction s1 as [|c s1 IH]; simpl; [done|].
  rewrite IH. by destruct (p c).
Qed.

Lemma tab_or_newline_c0 (c : ascii) :
  is_c0_or_space c = false → is_tab_or_newline c = false.
Proof.
  unfold is_c0_or_space, is_tab_or_newline. intros H.
  apply Nat.leb_gt in H.
  rewrite !orb_false_iff, !Nat.eqb_neq. lia.
Qed.

Lemma strip_trailing_plain (s : string) : plain s = true → strip_trailing s = s.
Proof.
  unfold plain.
  induction s as [|c s IH]; simpl; [done|].
  intros H. apply andb_true_iff in H as [Hc Hs]. rewrite (IH Hs).
  apply negb_true_iff in Hc. rewrite Hc. by destruct s.
Qed.

Lemma remove_tab_newline_plain (s : string) : plain s = true → remove_tab_newline s = s.
Proof.
  unfold plain.
  induction s as [|c s IH]; simpl; [done|].
  intros H. apply andb_true_iff in H as [Hc Hs]. apply negb_true_iff in Hc.
  by rewrite (tab_or_newline_c0 c Hc), (IH Hs).
Qed.

Lemma clean_plain (s : string) : plain s = true → clean s = s.
Proof.
  unfold plain.
  intros H. unfold clean.
  assert (Hl : strip_leading s = s).
  { destruct s as [|c s]; [done|]. simpl in *.
    apply andb_true_iff in H as [Hc _]. apply negb_true_iff in Hc. by rewrite Hc. }
  by rewrite Hl, strip_trailing_plain, remove_tab_newline_plain.
Qed.

(** What a character allowed in a domain is not. *)
Lemma domain_char (c : ascii) :
  is_forbidden c = false →
  is_c0_or_space c = false ∧ ends_authority c = false ∧ is_slash c = false
  ∧ Ascii.eqb c "@" = false ∧ Ascii.eqb c ":" = false ∧ Ascii.eqb c "[" = false.
Proof.
  destruct c as [[] [] [] [] [] [] [] []]; vm_compute; intros H;
    first [discriminate H | by repeat split].
Qed.

Lemma domain_plain (h : string) :
  all_chars (λ c, negb (is_forbidden c)) h = true → plain h = true.
Proof.
  unfold plain.
  induction h as [|c h IH]; simpl; [done|].
  intros H. apply andb_true_iff in H as [Hc Hh]. apply negb_true_iff in Hc.
  destruct (domain_char c Hc) as (-> & _). by rewrite IH.
Qed.

Lemma domain_no_char (x : ascii) (h : string) :
  is_forbidden x = true →
  all_chars (λ c, negb (is_forbidden c)) h = true → mem_char x h = false.
Proof.
  intros Hx. induction h as [|c h IH]; simpl; [done|].
  intros H. apply andb_true_iff in H as [Hc Hh]. rewrite (IH Hh).
  destruct (Ascii.eqb_spec c x) as [->|]; [|done].
  rewrite Hx in Hc. discriminate.
Qed.

Lemma before_char_absent (x : ascii) (s : string) :
  mem_char x s = false → before_char x s = s ∧ after_char x s = None.
Proof.
  induction s as [|c s IH]; simpl; [done|].
  intros H. apply orb_false_iff in H as [Hc Hs]. rewrite Hc.
  destruct (IH Hs) as [-> ->]. done.
Qed.

Lemma authority_text_domain (h rest : string) :
  all_chars (λ c, negb (is_forbidden c)) h = true → delimited rest = true →
  authority_text (h ++ rest) = h.
Proof.
  intros Hh Hrest. induction h as [|c h IH]; simpl.
  - destruct rest as [|c r]; simpl in *; [done|]. by rewrite Hrest.
  - simpl in Hh. apply andb_true_iff in Hh as [Hc Hh]. apply negb_true_iff in Hc.
    destruct (domain_char c Hc) as (_ & -> & _). by rewrite IH.
Qed.

Lemma host_of_domain (h : string) : is_domain h = true → host_of h = Some (lowercase h).
Proof.
  unfold is_domain. intros H. apply andb_true_iff in H as [Hne Hall].
  unfold host_of.
  assert (Hat : drop_credentials h = h).
  { pose proof (domain_no_char "@" h eq_refl Hall) as Hno.
    destruct h as [|c h]; [done|]. simpl in *.
    apply orb_false_iff in Hno as [Hc Hno]. by rewrite Hno, Hc. }
  rewrite Hat.
  destruct (before_char_absent ":" h (domain_no_char ":" h eq_refl Hall)) as [Hb Ha].
  rewrite Hb, Ha. simpl.
  assert (Hdom : is_domain h = true) by (unfold is_domain; by rewrite Hne, Hall).
  rewrite Hdom.
  destruct h as [|c h]; [done|].
  simpl in Hall. apply andb_true_iff in Hall as [Hc _]. apply negb_true_iff in Hc.
  destruct (domain_char c Hc) as (_ & _ & _ & _ & _ & Hbr).
  destruct (Ascii.eqb_spec c "[") as [->|Hne']; [discriminate|].
  destruct c as [[] [] [] [] [] [] [] []]; try done.
Qed.

Lemma at_authority_domain (sch h rest : string) :
  is_domain h = true → delimited rest = true →
  at_authority sch (h ++ rest) = At {| scheme := sch; host := lowercase h |}
  ∧ at_authority sch ("//" ++ h ++ rest) = At {| scheme := sch; host := lowercase h |}.
Proof.
  intros Hdom Hrest.
  assert (Hall : all_chars (λ c, negb (is_forbidden c)) h = true).
  { unfold is_domain in Hdom. by apply andb_true_iff in Hdom as [_ ?]. }
  assert (Hskip : skip_slashes (h ++ rest) = (h ++ rest)%string).
  { destruct h as [|c h]; [done|]. simpl in *.
    apply andb_true_iff in Hall as [Hc _]. apply negb_true_iff in Hc.
    by destruct (domain_char c Hc) as (_ & _ & -> & _). }
  assert (Hfirst : at_authority sch (h ++ rest)
                   = At {| scheme := sch; host := lowercase h |}).
  { unfold at_authority. rewrite Hskip, (authority_text_domain h rest Hall Hrest).
    by rewrite host_of_domain. }
  split; [exact Hfirst|]. exact Hfirst.
Qed.

Lemma same_origin_host (app o : Origin) :
  host o ≠ lowercase (host app) → same_origin app o = false.
Proof.
  intros H. unfold same_origin.
  destruct (String.eqb_spec (host o) (lowercase (host app))); [contradiction|].
  apply andb_false_r.
Qed.

Lemma read_scheme_https (x : string) :
  read_scheme ("https:" ++ x) = Some ("https", x)
  ∧ read_scheme ("http:" ++ x) = Some ("http", x).
Proof. split; reflexivity. Qed.

Lemma login_redirect_foreign (cfg : Settings) (app : Origin) (h rest : string) :
  is_domain h = true → plain rest = true → delimited rest = true →
  lowercase h ≠ lowercase (host app) →
  login_redirect cfg app (Some ("https://" ++ h ++ rest)) = LOGIN_REDIRECT_URL cfg
  ∧ login_redirect cfg app (Some ("http://" ++ h ++ rest)) = LOGIN_REDIRECT_URL cfg
  ∧ login_redirect cfg app (Some ("//" ++ h ++ rest)) = LOGIN_REDIRECT_URL cfg.
Proof.
  intros Hdom Hplain Hrest Hne.
  assert (Hall : all_chars (λ c, negb (is_forbidden c)) h = true).
  { unfold is_domain in Hdom. by apply andb_true_iff in Hdom as [_ ?]. }
  assert (Hhr : plain (h ++ rest) = true).
  { pose proof (domain_plain h Hall) as Hh. unfold plain in *.
    by rewrite all_chars_app, Hh, Hplain. }
  assert (Hrel : relative app ("//" ++ h ++ rest)
                 = At {| scheme := lowercase (scheme app); host := lowercase h |}).
  { change (relative app ("//" ++ h ++ rest))
      with (at_authority (lowercase (scheme app)) (h ++ rest)).
    apply (at_authority_domain _ h rest Hdom Hrest). }
  assert (Hdone : ∀ target sch,
            resolve app target = At {| scheme := sch; host := lowercase h |} →
            String.eqb target "" = false →
            login_redirect cfg app (Some target) = LOGIN_REDIRECT_URL cfg).
  { intros target sch Hres Hnonempty. unfold login_redirect.
    rewrite Hnonempty, Hres. by rewrite same_origin_host. }
  split; [|split].
  - apply (Hdone _ "https"); [|done]. unfold resolve.
    rewrite (clean_plain ("https://" ++ h ++ rest)) by exact Hhr.
    change ("https://" ++ h ++ rest) with ("https:" ++ ("//" ++ h ++ rest)).
    rewrite (proj1 (read_scheme_https _)).
    change (is_special "https") with true. cbv iota.
    destruct (String.eqb_spec "https" (lowercase (scheme app))) as [Heq|_].
    + rewrite Hrel. by rewrite <- Heq.
    + apply (at_authority_domain _ h rest Hdom Hrest).
  - apply (Hdone _ "http"); [|done]. unfold resolve.
    rewrite (clean_plain ("http://" ++ h ++ rest)) by exact Hhr.
    change ("http://" ++ h ++ rest) with ("http:" ++ ("//" ++ h ++ rest)).
    rewrite (proj2 (read_scheme_https _)).
    change (is_special "http") with true. cbv iota.
    destruct (String.eqb_spec "http" (lowercase (scheme app))) as [Heq|_].
    + rewrite Hrel. by rewrite <- Heq.
    + apply (at_authority_domain _ h rest Hdom Hrest).
  - apply (Hdone _ (lowercase (scheme app))); [|done]. unfold resolve.
    rewrite (clean_plain ("//" ++ h ++ rest)) by exact Hhr.
    change (read_scheme ("//" ++ h ++ rest)) with (@None (string * string)).
    exact Hrel.
Qed.

Lemma login_redirect_absolute_path (cfg : Settings) (app : Origin)
    (c : ascii) (rest : string) :
  is_slash c = false → plain (String c rest) = true →
  login_redirect cfg app (Some (String "/" (String c rest))) = String "/" (String c rest).
Proof.
  intros Hc Hplain. unfold login_redirect, resolve.
  change (String.eqb (String "/" (String c rest)) "") with false. cbv iota.
  rewrite (clean_plain (String "/" (String c rest))) by exact Hplain.
  change (read_scheme (String "/" (String c rest))) with (@None (string * string)).
  unfold relative. rewrite Hc. by rewrite andb_false_r.
Qed.

(** Evaluation of [resolve] on a written-out target, for any
    application. *)
Ltac resolve_target app :=
  unfold resolve;
  match goal with
  | |- context [clean ?t] =>
      let c := eval vm_compute in (clean t) in change (clean t) with c
  end;
  match goal with
  | |- context [read_scheme ?t] =>
      let r := eval vm_compute in (read_scheme t) in change (read_scheme t) with r
  end;
  cbv iota beta;
  try match goal with
      | |- context [is_special ?x] =>
          let r := eval vm_compute in (is_special x) in
          change (is_special x) with r; cbv iota
      end;
  try match goal with
      | |- context [String.eqb ?x (lowercase (scheme app))] =>
          destruct (String.eqb x (lowercase (scheme app)))
      end;
  unfold relative; cbv iota beta;
  try match goal with
      | |- context [is_slash ?a && is_slash ?b] =>
          let r := eval vm_compute in (is_slash a && is_slash b) in
          change (is_slash a && is_slash b) with r; cbv iota
      end;
  try match goal with
      | |- context [at_authority ?s ?t] =>
          let found := eval vm_compute in (host_of (authority_text (skip_slashes t))) in
          change (at_authority s t)
            with (match found with
                  | Some name => At {| scheme := s; host := name |}
                  | None => NoOrigin
                  end)
      end;
  cbv iota beta.

Lemma resolve_evil_targets (app : Origin) :
  Forall (λ target, target ≠ ""
                    ∧ ∃ sch, resolve app target
                             = At {| scheme := sch; host := "evil.com" |})
    [ "https://evil.com/x"; "https://evil.com/phishing"; "//evil.com/x";
      "/\evil.com/x"; "\\evil.com/x"; "HTTPS://EVIL.COM/x"; "https:///evil.com/x";
      "https://members.example.org@evil.com/x"; " https://evil.com/x" ].
Proof.
  repeat constructor; try discriminate; resolve_target app; eauto.
Qed.

Lemma resolve_no_origin_targets (app : Origin) :
  Forall (λ target, target ≠ "" ∧ resolve app target = NoOrigin)
    [ "javascript:alert(1)"; "data:text/html,x"; "file:///etc/passwd";
      "https://ev%69l.com/x" ].
Proof.
  repeat constructor; try discriminate; resolve_target app; reflexivity.
Qed.

Lemma resolve_http_evil (app : Origin) :
  lowercase (scheme app) = "https" →
  resolve app "http:evil.com/x" = At {| scheme := "http"; host := "evil.com" |}.
Proof.
  intros Hsch. unfold resolve.
  change (read_scheme (clean "http:evil.com/x")) with (Some ("http", "evil.com/x")).
  cbv iota beta. change (is_special "http") with true. cbv iota.
  rewrite Hsch. reflexivity.
Qed.

Lemma login_redirect_elsewhere (cfg : Settings) (app : Origin)
    (target sch h : string) :
  target ≠ "" → resolve app target = At {| scheme := sch; host := h |} →
  h ≠ lowercase (host app) →
  login_redirect cfg app (Some target) = LOGIN_REDIRECT_URL cfg.
Proof.
  intros Hne Hres Hh. unfold login_redirect. rewrite Hres.
  destruct (String.eqb_spec target ""); [done|].
  by rewrite same_origin_host.
Qed.

(** C1: an absent or empty [next] redirects to the configured default.  A
    bare path is used as it is: every target made of one slash followed
    by anything that does not start with a slash or backslash and holds
    no blanks, ["/payments/"] among them.  A target that resolves to an
    origin other than the application's is discarded for the default:
    every ["https://host..."], ["http://host..."] and ["//host..."] whose
    host is a domain other than the application's, ["https://evil.com/x"]
    among them, whatever case, backslashes or missing slashes it is
    written with; and a target of another kind of scheme.  So the
    redirect never leads to the external host. *)
Theorem login_redirect_validated (cfg : Settings) (app : Origin) :
  login_redirect cfg app None = LOGIN_REDIRECT_URL cfg
  ∧ login_redirect cfg app (Some "") = LOGIN_REDIRECT_URL cfg
  ∧ (∀ c rest, is_slash c = false → plain (String c rest) = true →
       login_redirect cfg app (Some (String "/" (String c rest)))
       = String "/" (String c rest))
  ∧ login_redirect cfg app (Some "/") = "/"
  ∧ login_redirect cfg app (Some "/payments/") = "/payments/"
  ∧ (∀ target, target ≠ "" → resolve app target = SamePath →
       login_redirect cfg app (Some target) = target)
  ∧ (∀ h rest, is_domain h = true → plain rest = true → delimited rest = true →
       lowercase h ≠ lowercase (host app) →
       login_redirect cfg app (Some ("https://" ++ h ++ rest)) = LOGIN_REDIRECT_URL cfg
       ∧ login_redirect cfg app (Some ("http://" ++ h ++ rest)) = LOGIN_REDIRECT_URL cfg
       ∧ login_redirect cfg app (Some ("//" ++ h ++ rest)) = LOGIN_REDIRECT_URL cfg)
  ∧ (lowercase (host app) ≠ "evil.com" →
       Forall (λ target, login_redirect cfg app (Some target) = LOGIN_REDIRECT_URL cfg)
         [ "https://evil.com/x"; "https://evil.com/phishing"; "//evil.com/x";
           "/\evil.com/x"; "\\evil.com/x"; "HTTPS://EVIL.COM/x"; "https:///evil.com/x";
           "https://members.example.org@evil.com/x"; " https://evil.com/x" ])
  ∧ (lowercase (scheme app) = "https" → lowercase (host app) ≠ "evil.com" →
       login_redirect cfg app (Some "http:evil.com/x") = LOGIN_REDIRECT_URL cfg)
  ∧ Forall (λ target, login_redirect cfg app (Some target) = LOGIN_REDIRECT_URL cfg)
      [ "javascript:alert(1)"; "data:text/html,x"; "file:///etc/passwd";
        "https://ev%69l.com/x" ]
  ∧ (∀ target o, resolve app target = At o → same_origin app o = false →
       login_redirect cfg app (Some target) = LOGIN_REDIRECT_URL cfg)
  ∧ (∀ target, resolve app target = NoOrigin →
       login_redirect cfg app (Some target) = LOGIN_REDIRECT_URL cfg).
Proof.
  split; [reflexivity|]. split; [reflexivity|].
  split; [apply login_redirect_absolute_path|].
  split; [reflexivity|]. split; [reflexivity|].
  split.
  { intros target Hne Hres. unfold login_redirect. rewrite Hres.
    by destruct (String.eqb_spec target ""). }
  split; [apply login_redirect_foreign|].
  split.
  { intros Hne. eapply Forall_impl; [apply (resolve_evil_targets app)|].
    intros target (Hnonempty & sch & Hres).
    apply (login_redirect_elsewhere cfg app target sch "evil.com"); congruence. }
  split.
  { intros Hsch Hne.
    apply (login_redirect_elsewhere cfg app _ "http" "evil.com");
      [discriminate | by apply resolve_http_evil | congruence]. }
  split.
  { eapply Forall_impl; [apply (resolve_no_origin_targets app)|].
    intros target [Hnonempty Hres]. unfold login_redirect. rewrite Hres.
    by destruct (String.eqb_spec target ""). }
  split.
  { intros target o Hres Hdiff. unfold login_redirect. rewrite Hres, Hdiff.
    by destruct (String.eqb target ""). }
  intros target Hres. unfold login_redirect. rewrite Hres.
  by destruct (String.eqb target "").
Qed.

Lemma login_redirect_validated_witness :
  login_redirect example_settings example_app (Some "/payments/") = "/payments/"
  ∧ login_redirect example_settings example_app (Some "https://evil.com/x") = "/"
  ∧ login_redirect example_settings example_app (Some "https://shop.example.net/cart")
    = "/"
  ∧ login_redirect example_settings example_app (Some "http:evil.com/x") = "/".
Proof.
  pose proof (login_redirect_validated example_settings example_app)
    as (_ & _ & Hpath & _ & _ & _ & Hforeign & Hevil & Hhttp & _).
  split; [|split; [|split]].
  - apply (Hpath "p"%char "ayments/"); reflexivity.
  - apply (List.Forall_inv (Hevil ltac:(discriminate))).
  - apply (Hforeign "shop.example.net" "/cart"); try reflexivity. discriminate.
  - apply Hhttp; [reflexivity | discriminate].
Defined.

(** A target of the application's own origin is used as it is, however it
    is written. *)
Lemma login_redirect_same_origin_examples :
  Forall (λ target, login_redirect example_settings example_app (Some target) = target)
    [ "//members.example.org/x"; "https://members.example.org/x";
      "HTTPS://Members.Example.ORG/x"; "https://members.example.org:443/x";
      "https:/payments/"; "?next=https://evil.com"; "payments" ].
Proof. repeat constructor. Qed.

End LoginRedirectFacts.

(** ** Tier selection *)

(** The sample helper does what the spec says of the missing one. *)
Lemma example_starter_subscription_active :
  synthesizes_active_record example_starter_subscription.
Proof.
  intros now a d. split; [done|].
  exists {| si_member := a; si_start := Some now; si_end := None;
            si_tier := TierField.STARTER |}.
  split; [|split; [done|]].
  - simpl. apply in_or_app. right. by left.
  - unfold active. simpl. apply Z.leb_refl.
Qed.

(** The customer-creation call is made first, whatever the tier and
    whatever the provider answers. *)
Lemma form_valid_first_call (sw : StripeWrapper) (create : StarterSubscription)
    (now : datetime) (alumni : Alumni) (form : Form) (d : Db) :
  ∃ later, trace (SignupView.form_valid sw create now alumni form d)
           = CreateCustomerCall alumni :: later.
Proof.
  unfold SignupView.form_valid.
  destruct (create_customer sw alumni) as [customer [e|]]; [by eexists|].
  destruct (if String.eqb _ _ then _ else _) as [d' effects]. by eexists.
Qed.

(** C2, as stated, fails: selecting the starter tier calls the provider
    (the customer is created before the tier is looked at), and when that
    call fails no subscription record is created at all. *)
Lemma starter_selection_calls_provider :
  cleaned_tier starter_form = TierField.STARTER
  ∧ provider_calls
      (trace (SignupView.form_valid example_wrapper example_starter_subscription
                0 1%nat starter_form empty_db))
    = [CreateCustomerCall 1%nat]
  ∧ provider_calls
      (trace (SignupView.form_valid example_wrapper example_starter_subscription
                0 1%nat starter_form empty_db))
    ≠ []
  ∧ subscriptions
      (db (SignupView.form_valid failing_wrapper example_starter_subscription
             0 1%nat starter_form empty_db))
    = [].
Proof. repeat split. discriminate. Qed.

(** C2, amended: when the starter tier is selected, [form_valid] first
    makes the provider's customer-creation call; when that call returns
    no error, it stores the membership with the returned customer and, in
    the same call, runs [create_starter_subscription] for the member on
    the tables holding the new membership.  With that operation doing
    what the spec says of it (a record of the member, active now, and no
    provider call), the member has an active subscription record when
    [form_valid] returns, and the customer-creation call is the only
    provider call of the operation. *)
Theorem starter_selection_creates_subscription (sw : StripeWrapper)
    (create : StarterSubscription)
    (now : datetime) (alumni : Alumni) (form : Form) (d : Db)
    (customer : option string) :
  cleaned_tier form = TierField.STARTER →
  create_customer sw alumni = (customer, None) →
  synthesizes_active_record create →
  let run := SignupView.form_valid sw create now alumni form d in
  let membership :=
    {| mi_member := Some alumni; mi_tier := TierField.STARTER;
       mi_customer := customer |} in
  ret run = (Some membership, form)
  ∧ db run = (create now alumni (save_membership membership d)).1
  ∧ trace run
    = CreateCustomerCall alumni
      :: (create now alumni (save_membership membership d)).2
  ∧ (∃ s, In s (subscriptions (db run))
          ∧ si_member s = alumni ∧ active s now = true)
  ∧ provider_calls (trace run) = [CreateCustomerCall alumni].
Proof.
  intros Htier Hcust Hcreate. simpl. unfold SignupView.form_valid.
  rewrite Hcust. unfold form_save_uncommitted. simpl. rewrite Htier. simpl.
  destruct (Hcreate now alumni
              (save_membership
                 {| mi_member := Some alumni; mi_tier := TierField.STARTER;
                    mi_customer := customer |} d)) as [Hcalls Hrecord].
  destruct (create now alumni _) as [d' effects]. simpl in *.
  repeat split; try done. by rewrite Hcalls.
Qed.

Lemma starter_selection_creates_subscription_witness :
  subscriptions
    (db (SignupView.form_valid example_wrapper example_starter_subscription
           5 1%nat starter_form empty_db))
  = [ {| si_member := 1%nat; si_start := Some 5; si_end := None;
         si_tier := "st" |} ]
  ∧ provider_calls
      (trace (SignupView.form_valid example_wrapper example_starter_subscription
                5 1%nat starter_form empty_db))
    = [CreateCustomerCall 1%nat].
Proof.
  pose proof (starter_selection_creates_subscription example_wrapper
                example_starter_subscription 5 1%nat
                starter_form empty_db (Some "cus_1") eq_refl eq_refl
                example_starter_subscription_active)
    as (_ & _ & _ & _ & Hcalls).
  split; [reflexivity | exact Hcalls].
Defined.

(** A paid tier stores the membership and creates no subscription record. *)
Lemma paid_selection_no_subscription (sw : StripeWrapper)
    (create : StarterSubscription) (now : datetime)
    (alumni : Alumni) (form : Form) (d : Db) :
  cleaned_tier form ≠ TierField.STARTER →
  subscriptions (db (SignupView.form_valid sw create now alumni form d))
  = subscriptions d.
Proof.
  intros Htier. unfold SignupView.form_valid.
  destruct (create_customer sw alumni) as [customer [e|]]; [done|]. simpl.
  destruct (String.eqb_spec (cleaned_tier form) TierField.STARTER); [contradiction|done].
Qed.

(** C10: when the customer-creation call returns an error, [form_valid]
    returns [None], attaches to the form the fixed generic message (the
    same for every provider error text) and leaves every table as it
    was: no membership is stored and no subscription record is created. *)
Theorem form_valid_provider_error (sw : StripeWrapper)
    (create : StarterSubscription) (now : datetime)
    (alumni : Alumni) (form : Form) (d : Db)
    (customer : option string) (provider_text : string) :
  create_customer sw alumni = (customer, Some provider_text) →
  let run := SignupView.form_valid sw create now alumni form d in
  ret run = (None, add_error form SignupView.PROVIDER_ERROR)
  ∧ non_field_errors (ret run).2
    = (non_field_errors form ++ [SignupView.PROVIDER_ERROR])%list
  ∧ db run = d
  ∧ memberships (db run) = memberships d
  ∧ subscriptions (db run) = subscriptions d.
Proof.
  intros Herr. simpl. unfold SignupView.form_valid. rewrite Herr. simpl.
  repeat split.
Qed.

Lemma form_valid_provider_error_witness :
  ret (SignupView.form_valid failing_wrapper example_starter_subscription
         0 1%nat starter_form empty_db)
  = (None, {| cleaned_tier := "st";
              non_field_errors := [SignupView.PROVIDER_ERROR] |})
  ∧ db (SignupView.form_valid failing_wrapper example_starter_subscription
          0 1%nat starter_form empty_db)
    = empty_db.
Proof.
  pose proof (form_valid_provider_error failing_wrapper
                example_starter_subscription 0 1%nat starter_form
                empty_db None "Connection refused" eq_refl)
    as (Hret & _ & Hdb & _).
  split; [exact Hret | exact Hdb].
Defined.

(** ** Subscription reconciliation *)

(** The local query selects exactly the rows of the member whose window is
    closed on both sides and covers [now]. *)
Lemma active_local_rows_spec (alumni : Alumni) (now : datetime)
    (rows : list SubscriptionInformation) (s : SubscriptionInformation) :
  In s (SubscribeView.active_local_rows alumni now rows)
  ↔ In s rows ∧ si_member s = alumni
    ∧ ∃ a b, si_start s = Some a ∧ si_end s = Some b ∧ a <= now <= b.
Proof.
  unfold SubscribeView.active_local_rows. rewrite filter_In.
  unfold SubscribeView.start__lte, SubscribeView.end__gte.
  rewrite !andb_true_iff, Nat.eqb_eq. split.
  - intros (Hin & (Hm & Hs) & He).
    destruct (si_start s) as [a|]; [|discriminate].
    destruct (si_end s) as [b|]; [|discriminate].
    apply Z.leb_le in Hs, He. eauto 10.
  - intros (Hin & Hm & a & b & -> & -> & Ha & Hb).
    repeat split; try done; by apply Z.leb_le.
Qed.

Lemma query_exists_In {A : Type} (rows : list A) :
  SubscribeView.query_exists rows = true ↔ ∃ x, In x rows.
Proof.
  destruct rows as [|x rows]; simpl; split; try done.
  - intros [x []].
  - intros _. exists x. by left.
Qed.

(** X5: A closed local window covering [now]: no setup, no provider call, no
    change. *)
Lemma should_setup_component_closed_window (sw : StripeWrapper) (now : datetime)
    (alumni : Alumni) (d : Db) (s : SubscriptionInformation) (a b : datetime) :
  In s (subscriptions d) → si_member s = alumni →
  si_start s = Some a → si_end s = Some b → a <= now <= b →
  SubscribeView.should_setup_component sw now alumni d
  = {| ret := false; db := d; trace := [] |}.
Proof.
  intros Hin Hm Hs He Hab. unfold SubscribeView.should_setup_component.
  assert (Hex : SubscribeView.query_exists
                  (SubscribeView.active_local_rows alumni now (subscriptions d)) = true).
  { apply query_exists_In. exists s. apply active_local_rows_spec. eauto 10. }
  by rewrite Hex.
Qed.

(** X6: When the local query selects nothing, the provider sync is called
    exactly once and the answer is decided by the activity of the record
    it returns. *)
Lemma should_setup_component_sync (sw : StripeWrapper) (now : datetime)
    (alumni : Alumni) (d : Db) :
  SubscribeView.active_local_rows alumni now (subscriptions d) = [] →
  let run := SubscribeView.should_setup_component sw now alumni d in
  let synced := sync_from_stripe sw alumni (subscriptions d) in
  trace run = [SyncFromStripeCall alumni]
  ∧ db run = SubscribeView.with_subscriptions d synced.2
  ∧ ret run = match synced.1 with
              | None => true
              | Some subscription => negb (active subscription now)
              end.
Proof.
  intros Hnone. simpl. unfold SubscribeView.should_setup_component.
  rewrite Hnone. simpl.
  destruct (sync_from_stripe sw alumni (subscriptions d)) as [[s|] rows]; simpl;
    [|done].
  unfold active.
  destruct (si_start s) as [a|]; [|done].
  destruct (si_end s) as [b|]; destruct (Z.leb a now); simpl; try done;
    destruct (Z.leb now b); done.
Qed.

(** C3 fails on the code for an open-ended local record.  The member's
    stored record has a null end: it is active (its start is not after
    now), yet the local query does not select it, so the provider sync is
    called; and when the provider knows no subscription for this member,
    setup is requested. *)
Theorem should_setup_component_open_ended (sw : StripeWrapper) :
  let now := 86400 in
  let run := SubscribeView.should_setup_component sw now 1%nat starter_db in
  Forall (λ s, active s now = true) (subscriptions starter_db)
  ∧ SubscribeView.active_local_rows 1%nat now (subscriptions starter_db) = []
  ∧ provider_calls (trace run) = [SyncFromStripeCall 1%nat]
  ∧ ((sync_from_stripe sw 1%nat (subscriptions starter_db)).1 = None →
     ret run = true).
Proof.
  simpl. split; [|split; [|split]].
  - repeat constructor.
  - reflexivity.
  - unfold SubscribeView.should_setup_component. simpl.
    destruct (sync_from_stripe sw 1%nat _) as [[s|] rows]; simpl; [|done].
    by repeat case_match.
  - unfold SubscribeView.should_setup_component. simpl.
    destruct (sync_from_stripe sw 1%nat _) as [[s|] rows]; simpl; [discriminate|done].
Qed.

Lemma should_setup_component_open_ended_witness :
  ret (SubscribeView.should_setup_component example_wrapper 86400 1%nat starter_db)
  = true
  ∧ trace (SubscribeView.should_setup_component example_wrapper 86400 1%nat starter_db)
    = [SyncFromStripeCall 1%nat].
Proof.
  pose proof (should_setup_component_open_ended example_wrapper)
    as (_ & _ & _ & Hret).
  split; [exact (Hret eq_refl) | reflexivity].
Defined.

(** ** Webhook ingestion *)

Section UpdateOrCreate.

Variables (i snapshot : string).

Local Abbreviation fresh := (Webhook.fresh i snapshot).
Local Abbreviation refresh := (Webhook.refresh i snapshot).

Lemma has_id_refresh (row : PaymentIntent) :
  Webhook.has_id i (refresh row) = Webhook.has_id i row.
Proof. unfold Webhook.refresh. by destruct (Webhook.has_id i row) eqn:E. Qed.

Lemma refresh_matching (row : PaymentIntent) :
  Webhook.has_id i row = true → refresh row = fresh.
Proof.
  intros H. unfold Webhook.refresh, Webhook.fresh. rewrite H.
  apply String.eqb_eq in H. by rewrite H.
Qed.

Lemma filter_map_refresh (rows : list PaymentIntent) :
  List.filter (Webhook.has_id i) (List.map refresh rows)
  = List.map (λ _, fresh) (List.filter (Webhook.has_id i) rows).
Proof.
  induction rows as [|row rows IH]; [done|]. simpl.
  rewrite has_id_refresh.
  destruct (Webhook.has_id i row) eqn:E; simpl; [|done].
  by rewrite IH, refresh_matching.
Qed.

(** Rows of other identifiers are left alone by the update. *)
Lemma filter_other_map_refresh (rows : list PaymentIntent) :
  List.filter (λ row, negb (Webhook.has_id i row)) (List.map refresh rows)
  = List.filter (λ row, negb (Webhook.has_id i row)) rows.
Proof.
  induction rows as [|row rows IH]; [done|]. simpl.
  rewrite has_id_refresh.
  destruct (Webhook.has_id i row) eqn:E; simpl; [done|].
  rewrite IH. unfold Webhook.refresh. by rewrite E.
Qed.

(** Refreshing a table whose matching rows already hold the snapshot
    changes nothing. *)
Lemma map_refresh_fixed (rows : list PaymentIntent) :
  Forall (λ row, row = fresh) (List.filter (Webhook.has_id i) rows) →
  List.map refresh rows = rows.
Proof.
  induction rows as [|row rows IH]; [done|]. simpl.
  destruct (Webhook.has_id i row) eqn:E; intros H.
  - apply Forall_cons in H as [-> H]. rewrite IH by done.
    f_equal. by apply refresh_matching.
  - rewrite IH by done. unfold Webhook.refresh. by rewrite E.
Qed.

(** With at most one row of the identifier, the upsert succeeds and
    leaves exactly one, holding the snapshot. *)
Lemma update_or_create_at_most_one (rows : list PaymentIntent) :
  (length (List.filter (Webhook.has_id i) rows) <= 1)%nat →
  ∃ rows', Webhook.update_or_create i snapshot rows = Ok rows'
           ∧ List.filter (Webhook.has_id i) rows' = [fresh]
           ∧ List.filter (λ row, negb (Webhook.has_id i row)) rows'
             = List.filter (λ row, negb (Webhook.has_id i row)) rows.
Proof.
  intros Hlen. unfold Webhook.update_or_create.
  destruct (List.filter (Webhook.has_id i) rows) as [|r [|r' rest]] eqn:E.
  - eexists. split; [done|]. rewrite !List.filter_app, E. simpl.
    unfold Webhook.has_id. simpl. rewrite String.eqb_refl. simpl.
    split; [done|]. by rewrite app_nil_r.
  - eexists. split; [done|].
    fold refresh. rewrite filter_map_refresh, filter_other_map_refresh, E.
    done.
  - simpl in Hlen. lia.
Qed.

(** The upsert is idempotent. *)
Lemma update_or_create_fixed (rows : list PaymentIntent) :
  List.filter (Webhook.has_id i) rows = [fresh] →
  Webhook.update_or_create i snapshot rows = Ok rows.
Proof.
  intros E. unfold Webhook.update_or_create. rewrite E.
  fold refresh. rewrite map_refresh_fixed; [done|].
  rewrite E. by constructor.
Qed.

(** More than one row of the identifier makes the upsert raise. *)
Lemma update_or_create_several (rows : list PaymentIntent) :
  (2 <= length (List.filter (Webhook.has_id i) rows))%nat →
  Webhook.update_or_create i snapshot rows = Raise "MultipleObjectsReturned".
Proof.
  intros Hlen. unfold Webhook.update_or_create.
  destruct (List.filter (Webhook.has_id i) rows) as [|r [|r' rest]];
    simpl in Hlen; [lia | lia | done].
Qed.

End UpdateOrCreate.

(** Identifiers stay unique under the upsert. *)
Lemma update_or_create_NoDup (i snapshot : string) (rows rows' : list PaymentIntent) :
  NoDup (stripe_id <$> rows) →
  Webhook.update_or_create i snapshot rows = Ok rows' →
  NoDup (stripe_id <$> rows').
Proof.
  intros Hnd. unfold Webhook.update_or_create.
  destruct (List.filter (Webhook.has_id i) rows) as [|r [|r' rest]] eqn:E;
    intros H; inversion H; subst; clear H.
  - rewrite fmap_app. simpl. apply NoDup_app. split; [done|]. split.
    + intros x Hx Hx'. apply list_elem_of_singleton in Hx'. subst x.
      apply list_elem_of_fmap in Hx as (row & Hid & Hrow).
      assert (Hin : In row (List.filter (Webhook.has_id i) rows)).
      { apply filter_In. split; [by apply list_elem_of_In|].
        unfold Webhook.has_id. rewrite <- Hid. apply String.eqb_refl. }
      rewrite E in Hin. destruct Hin.
    + apply NoDup_singleton.
  - assert (Heq : stripe_id <$> List.map (Webhook.refresh i snapshot) rows
                  = stripe_id <$> rows).
    { clear. induction rows as [|row rows IH]; [done|]. simpl.
      f_equal; [|exact IH]. unfold Webhook.refresh.
      by destruct (Webhook.has_id i row). }
    by rewrite Heq.
Qed.

Lemma NoDup_at_most_one (i : string) (rows : list PaymentIntent) :
  NoDup (stripe_id <$> rows) →
  (length (List.filter (Webhook.has_id i) rows) <= 1)%nat.
Proof.
  induction rows as [|row rows IH]; simpl; [lia|].
  intros Hnd. apply NoDup_cons in Hnd as [Hnot Hnd].
  destruct (Webhook.has_id i row) eqn:E; [|by apply IH].
  simpl. apply String.eqb_eq in E.
  destruct (List.filter (Webhook.has_id i) rows) as [|r rest] eqn:F; simpl; [lia|].
  exfalso. apply Hnot.
  assert (Hin : In r (List.filter (Webhook.has_id i) rows)) by (rewrite F; by left).
  apply filter_In in Hin as [Hin Hr]. apply String.eqb_eq in Hr.
  apply list_elem_of_fmap. exists r. split; [congruence|]. by apply list_elem_of_In.
Qed.

Section StripeWebhook.

Variables (sw : StripeWrapper) (cfg : Settings).

Lemma stripe_webhook_rejected (request : Webhook.HttpRequest) (d : Db) :
  truthy (Webhook.verified sw cfg request).2 = true →
  Webhook.stripe_webhook sw cfg request d
  = {| ret := Ok Webhook.HttpResponseBadRequest;
       db := d;
       trace := [Print (default "" (Webhook.verified sw cfg request).2)] |}.
Proof.
  unfold Webhook.verified, Webhook.stripe_webhook.
  destruct (make_stripe_event _ _ _ _) as [event error]. simpl.
  by intros ->.
Qed.

Lemma stripe_webhook_ignored (request : Webhook.HttpRequest) (d : Db)
    (event : Event) (error : option string) :
  Webhook.verified sw cfg request = (Some event, error) → truthy error = false →
  String.prefix "payment_intent." (type event) = false →
  Webhook.stripe_webhook sw cfg request d
  = {| ret := Ok Webhook.HttpResponse; db := d; trace := [] |}.
Proof.
  unfold Webhook.verified, Webhook.stripe_webhook. intros -> -> Hprefix.
  by rewrite Hprefix.
Qed.

Lemma stripe_webhook_upsert (request : Webhook.HttpRequest) (d : Db)
    (event : Event) (error : option string) (rows : list PaymentIntent) :
  Webhook.verified sw cfg request = (Some event, error) → truthy error = false →
  String.prefix "payment_intent." (type event) = true →
  Webhook.update_or_create (id (data_object event))
    (_pi_to_dict sw (data_object event)) (payment_intents d) = Ok rows →
  Webhook.stripe_webhook sw cfg request d
  = {| ret := Ok Webhook.HttpResponse;
       db := Webhook.with_payment_intents d rows;
       trace := [] |}.
Proof.
  unfold Webhook.verified, Webhook.stripe_webhook. intros -> -> Hprefix Hup.
  by rewrite Hprefix, Hup.
Qed.

End StripeWebhook.

(** C4: ingestion of a payment-intent event is an idempotent upsert keyed
    by the intent's identifier.  On a table holding at most one row of
    that identifier (as every table the webhook itself has built does),
    delivering the event twice answers 200 both times and leaves exactly
    one row of the identifier, holding the snapshot derived from the
    event; the second delivery changes nothing, and rows of other
    identifiers are as they were. *)
Theorem stripe_webhook_idempotent (sw : StripeWrapper) (cfg : Settings)
    (request : Webhook.HttpRequest) (d : Db) (event : Event)
    (error : option string) :
  Webhook.verified sw cfg request = (Some event, error) →
  truthy error = false →
  String.prefix "payment_intent." (type event) = true →
  (length (List.filter (Webhook.has_id (id (data_object event)))
             (payment_intents d)) <= 1)%nat →
  let once := Webhook.stripe_webhook sw cfg request d in
  let twice := Webhook.stripe_webhook sw cfg request (db once) in
  ret once = Ok 200 ∧ ret twice = Ok 200
  ∧ List.filter (Webhook.has_id (id (data_object event)))
      (payment_intents (db twice))
    = [ {| stripe_id := id (data_object event);
           data := _pi_to_dict sw (data_object event) |} ]
  ∧ db twice = db once
  ∧ List.filter (λ row, negb (Webhook.has_id (id (data_object event)) row))
      (payment_intents (db twice))
    = List.filter (λ row, negb (Webhook.has_id (id (data_object event)) row))
        (payment_intents d).
Proof.
  intros Hver Herr Hprefix Hone. simpl.
  destruct (update_or_create_at_most_one (id (data_object event))
              (_pi_to_dict sw (data_object event)) (payment_intents d) Hone)
    as (rows & Hup & Hrow & Hothers).
  rewrite (stripe_webhook_upsert sw cfg request d event error rows
             Hver Herr Hprefix Hup). simpl.
  assert (Hagain :
    Webhook.stripe_webhook sw cfg request (Webhook.with_payment_intents d rows)
    = {| ret := Ok Webhook.HttpResponse;
         db := Webhook.with_payment_intents d rows;
         trace := [] |}).
  { rewrite (stripe_webhook_upsert sw cfg request _ event error rows
               Hver Herr Hprefix); [done|].
    simpl. by apply update_or_create_fixed. }
  rewrite Hagain. simpl. done.
Qed.

Lemma stripe_webhook_idempotent_witness :
  let request := {| Webhook.body := "{}"; Webhook.HTTP_STRIPE_SIGNATURE := Some "good" |} in
  let once := Webhook.stripe_webhook example_wrapper example_settings request empty_db in
  let twice := Webhook.stripe_webhook example_wrapper example_settings request (db once) in
  payment_intents (db twice) = [ {| stripe_id := "pi_1"; data := "{amount: 3900}" |} ]
  ∧ ret twice = Ok 200.
Proof.
  pose proof (stripe_webhook_idempotent example_wrapper example_settings
                {| Webhook.body := "{}"; Webhook.HTTP_STRIPE_SIGNATURE := Some "good" |}
                empty_db example_event None eq_refl eq_refl eq_refl
                (le_S _ _ (le_n 0)))
    as (_ & Hret & _).
  split; [reflexivity | exact Hret].
Defined.

(** The webhook keeps identifiers unique, so the tables it builds from an
    empty one never hold two rows of one identifier. *)
Lemma stripe_webhook_NoDup (sw : StripeWrapper) (cfg : Settings)
    (request : Webhook.HttpRequest) (d : Db) :
  NoDup (stripe_id <$> payment_intents d) →
  NoDup (stripe_id <$> payment_intents (db (Webhook.stripe_webhook sw cfg request d))).
Proof.
  intros Hnd. unfold Webhook.stripe_webhook.
  destruct (make_stripe_event _ _ _ _) as [event error].
  destruct (truthy error); [done|].
  destruct event as [event|]; [|done].
  destruct (String.prefix _ _); [|done].
  destruct (Webhook.update_or_create _ _ _) as [rows|e] eqn:E; [|done].
  simpl. by eapply update_or_create_NoDup.
Qed.

(** C5: a request that fails verification or parsing (the wrapper returns
    an error) is answered with status 400 and nothing else happens: the
    tables, the payment intents among them, are exactly as before, and the
    only effect is the printed error. *)
Theorem stripe_webhook_rejects_unverified (sw : StripeWrapper) (cfg : Settings)
    (request : Webhook.HttpRequest) (d : Db) :
  truthy (Webhook.verified sw cfg request).2 = true →
  let run := Webhook.stripe_webhook sw cfg request d in
  ret run = Ok 400
  ∧ db run = d
  ∧ payment_intents (db run) = payment_intents d
  ∧ provider_calls (trace run) = [].
Proof.
  intros Herr. simpl. rewrite stripe_webhook_rejected by done. done.
Qed.

Lemma stripe_webhook_rejects_unverified_witness :
  let request := {| Webhook.body := "{}"; Webhook.HTTP_STRIPE_SIGNATURE := None |} in
  ret (Webhook.stripe_webhook example_wrapper example_settings request starter_db)
  = Ok 400
  ∧ db (Webhook.stripe_webhook example_wrapper example_settings request starter_db)
    = starter_db.
Proof.
  pose proof (stripe_webhook_rejects_unverified example_wrapper example_settings
                {| Webhook.body := "{}"; Webhook.HTTP_STRIPE_SIGNATURE := None |}
                starter_db eq_refl)
    as (Hret & Hdb & _).
  split; [exact Hret | exact Hdb].
Defined.

(** C6: a verified event whose type does not start with
    ["payment_intent."] is answered with status 200 and leaves the tables
    unchanged; a verified payment-intent event whose upsert is carried
    out is answered with status 200 as well. *)
Theorem stripe_webhook_accepts_verified (sw : StripeWrapper) (cfg : Settings)
    (request : Webhook.HttpRequest) (d : Db) (event : Event)
    (error : option string) :
  Webhook.verified sw cfg request = (Some event, error) →
  truthy error = false →
  let run := Webhook.stripe_webhook sw cfg request d in
  (String.prefix "payment_intent." (type event) = false →
     ret run = Ok 200 ∧ db run = d ∧ payment_intents (db run) = payment_intents d)
  ∧ (String.prefix "payment_intent." (type event) = true →
     (length (List.filter (Webhook.has_id (id (data_object event)))
                (payment_intents d)) <= 1)%nat →
     ret run = Ok 200).
Proof.
  intros Hver Herr. simpl. split.
  - intros Hprefix.
    by rewrite (stripe_webhook_ignored sw cfg request d event error).
  - intros Hprefix Hone.
    destruct (update_or_create_at_most_one (id (data_object event))
                (_pi_to_dict sw (data_object event)) (payment_intents d) Hone)
      as (rows & Hup & _).
    by rewrite (stripe_webhook_upsert sw cfg request d event error rows).
Qed.

Lemma stripe_webhook_accepts_verified_witness :
  let request := {| Webhook.body := "{}"; Webhook.HTTP_STRIPE_SIGNATURE := Some "other" |} in
  ret (Webhook.stripe_webhook example_wrapper example_settings request starter_db)
  = Ok 200
  ∧ db (Webhook.stripe_webhook example_wrapper example_settings request starter_db)
    = starter_db.
Proof.
  pose proof (proj1 (stripe_webhook_accepts_verified example_wrapper example_settings
                {| Webhook.body := "{}"; Webhook.HTTP_STRIPE_SIGNATURE := Some "other" |}
                starter_db example_other_event None eq_refl eq_refl) eq_refl)
    as (Hret & Hdb & _).
  split; [exact Hret | exact Hdb].
Defined.

(** ** Invoice tables *)

(** Subscription lines without description that raise: one without
    plan, one without period, and one whose period ends beyond the last
    year a date can hold. *)
Lemma format_description_subscription_raises :
  PaymentsTableMixin.description planless_line = None
  ∧ PaymentsTableMixin.line_type planless_line = "subscription"
  ∧ PaymentsTableMixin.format_description example_date_format planless_line
    = Raise "'NoneType' object has no attribute 'name'"
  ∧ PaymentsTableMixin.description periodless_line = None
  ∧ PaymentsTableMixin.line_type periodless_line = "subscription"
  ∧ PaymentsTableMixin.format_description example_date_format periodless_line
    = Raise "'NoneType' object has no attribute 'start'"
  ∧ PaymentsTableMixin.description endless_line = None
  ∧ PaymentsTableMixin.line_type endless_line = "subscription"
  ∧ PaymentsTableMixin.format_description example_date_format endless_line
    = Raise "year 10000 is out of range".
Proof. repeat split. Qed.

(** C9, amended: a line with a description is rendered as that
    description, unchanged; a line without one that is a subscription
    line with a plan and a period, whose start and end the date formatter
    accepts, is rendered as
    ["{quantity} x {plan name} ({period start date} - {period end date})"];
    a line without description that is not a subscription line raises the
    missing-description error.  [format_description] raises exactly when
    the line has no description and is not a subscription line, or has no
    plan, or has no period, or has a period start or end that cannot be
    formatted. *)
Theorem format_description_cases (date_format : Z → string → result string)
    (line : PaymentsTableMixin.InvoiceLine) :
  (∀ d, PaymentsTableMixin.description line = Some d →
        PaymentsTableMixin.format_description date_format line = Ok d)
  ∧ (∀ plan period period_start period_end,
       PaymentsTableMixin.description line = None →
       PaymentsTableMixin.line_type line = "subscription" →
       PaymentsTableMixin.plan line = Some plan →
       PaymentsTableMixin.period line = Some period →
       date_format (PaymentsTableMixin.start period) "DATE_FORMAT" = Ok period_start →
       date_format (PaymentsTableMixin.end_ period) "DATE_FORMAT" = Ok period_end →
       PaymentsTableMixin.format_description date_format line
       = Ok (PaymentsTableMixin.str_quantity (PaymentsTableMixin.quantity line)
             ++ " x " ++ PaymentsTableMixin.name plan
             ++ " (" ++ period_start ++ " - " ++ period_end ++ ")"))
  ∧ (PaymentsTableMixin.description line = None →
     PaymentsTableMixin.line_type line ≠ "subscription" →
     PaymentsTableMixin.format_description date_format line
     = Raise "Non-subscription without description")
  ∧ (raises (PaymentsTableMixin.format_description date_format line) = true
     ↔ PaymentsTableMixin.description line = None
       ∧ (PaymentsTableMixin.line_type line ≠ "subscription"
          ∨ PaymentsTableMixin.plan line = None
          ∨ PaymentsTableMixin.period line = None
          ∨ ∃ period, PaymentsTableMixin.period line = Some period
              ∧ (raises (date_format (PaymentsTableMixin.start period) "DATE_FORMAT")
                 = true
                 ∨ raises (date_format (PaymentsTableMixin.end_ period) "DATE_FORMAT")
                   = true))).
Proof.
  unfold PaymentsTableMixin.format_description, PaymentsTableMixin.format_datetime.
  destruct (PaymentsTableMixin.description line) as [d|].
  { repeat split; try congruence; try discriminate.
    intros [? _]. discriminate. }
  destruct (String.eqb_spec (PaymentsTableMixin.line_type line) "subscription")
    as [Heq|Hne].
  2: { split; [discriminate|]. split; [intros; contradiction|].
       split; [done|]. split; [intros _; split; [done | by left] | done]. }
  split; [discriminate|].
  split.
  { intros p q s t _ _ -> -> Hs Ht. simpl. rewrite Hs. simpl. rewrite Ht.
    reflexivity. }
  split; [contradiction|].
  destruct (PaymentsTableMixin.plan line) as [p|]; simpl.
  2: { split; [intros _; split; [done | right; by left] | done]. }
  destruct (PaymentsTableMixin.period line) as [q|]; simpl.
  2: { split; [intros _; split; [done | right; right; by left] | done]. }
  destruct (date_format (PaymentsTableMixin.start q) _) as [s|es] eqn:Es; simpl.
  2: { split; [|done]. intros _. split; [done|]. do 3 right.
       exists q. split; [done|]. left. by rewrite Es. }
  destruct (date_format (PaymentsTableMixin.end_ q) _) as [t|et] eqn:Et; simpl.
  2: { split; [|done]. intros _. split; [done|]. do 3 right.
       exists q. split; [done|]. right. by rewrite Et. }
  split; [discriminate|].
  intros [_ [?|[?|[?|(q' & [= <-] & [Hs|Ht])]]]]; try done.
  - by rewrite Es in Hs.
  - by rewrite Et in Ht.
Qed.

Lemma format_description_cases_witness :
  PaymentsTableMixin.format_description example_date_format example_described_line
  = Ok "Donation"
  ∧ PaymentsTableMixin.format_description example_date_format
      example_subscription_line
    = Ok "1 x Contributor (day 0 - day 365)"
  ∧ PaymentsTableMixin.format_description example_date_format uncounted_line
    = Ok "None x Contributor (day 0 - day 365)"
  ∧ raises (PaymentsTableMixin.format_description example_date_format
              example_bare_line) = true.
Proof.
  split; [|split; [|split]].
  - exact (proj1 (format_description_cases example_date_format
                    example_described_line) "Donation" eq_refl).
  - exact (proj1 (proj2 (format_description_cases example_date_format
                           example_subscription_line))
             {| PaymentsTableMixin.name := "Contributor" |}
             {| PaymentsTableMixin.start := 0; PaymentsTableMixin.end_ := 31536000 |}
             "day 0" "day 365" eq_refl eq_refl eq_refl eq_refl eq_refl eq_refl).
  - exact (proj1 (proj2 (format_description_cases example_date_format
                           uncounted_line))
             {| PaymentsTableMixin.name := "Contributor" |}
             {| PaymentsTableMixin.start := 0; PaymentsTableMixin.end_ := 31536000 |}
             "day 0" "day 365" eq_refl eq_refl eq_refl eq_refl eq_refl eq_refl).
  - apply (proj2 (proj2 (proj2 (format_description_cases example_date_format
                                  example_bare_line)))).
    split; [reflexivity | left; discriminate].
Defined.

(** Every currency code other than ["eur"] and ["usd"] raises, whatever
    the amount. *)
Lemma format_total_unknown_currency (amount : PaymentsTableMixin.number)
    (cur : string) :
  cur ≠ "eur" → cur ≠ "usd" →
  PaymentsTableMixin.format_total amount cur = Raise ("unknown currency " ++ cur).
Proof.
  intros Heur Husd. unfold PaymentsTableMixin.format_total.
  destruct (String.eqb_spec cur "eur"); [contradiction|].
  destruct (String.eqb_spec cur "usd"); [contradiction|done].
Qed.

(** The only exception of [amount / 100] is the overflow of an [int]. *)
Lemma true_div_100_Raise (amount : PaymentsTableMixin.number) (e : string) :
  PaymentsTableMixin.true_div_100 amount = Raise e →
  e = PaymentsTableMixin.OVERFLOW.
Proof.
  destruct amount as [n|x]; unfold PaymentsTableMixin.true_div_100;
    [|discriminate].
  unfold PaymentsTableMixin.int_true_div_100. cbv zeta.
  destruct (binary_normalize _ _ _ _ _); congruence.
Qed.

(** X21: [format_total] raises exactly when the currency code is neither
    ["eur"] nor ["usd"], or the division of the amount by 100 raises.
    The division of a float never raises (infinities and NaN included);
    that of an [int] raises when the quotient is beyond the largest
    float: [10**310 / 100] is a float, [10**311 / 100] and
    [10**400 / 100] overflow. *)
Lemma format_total_raises_iff (amount : PaymentsTableMixin.number) (cur : string) :
  (raises (PaymentsTableMixin.format_total amount cur) = true
   ↔ (cur ≠ "eur" ∧ cur ≠ "usd")
     ∨ raises (PaymentsTableMixin.true_div_100 amount) = true)
  ∧ (∀ x, raises (PaymentsTableMixin.true_div_100 (PaymentsTableMixin.PyFloat x))
          = false)
  ∧ raises (PaymentsTableMixin.format_total
              (PaymentsTableMixin.PyInt (10 ^ 310)) "usd") = false
  ∧ PaymentsTableMixin.format_total (PaymentsTableMixin.PyInt (10 ^ 311)) "usd"
    = Raise PaymentsTableMixin.OVERFLOW
  ∧ PaymentsTableMixin.format_total (PaymentsTableMixin.PyInt (10 ^ 400)) "eur"
    = Raise PaymentsTableMixin.OVERFLOW
  ∧ PaymentsTableMixin.format_total (PaymentsTableMixin.PyInt (- 10 ^ 400)) "usd"
    = Raise PaymentsTableMixin.OVERFLOW.
Proof.
  split; [|split; [done|repeat split; vm_compute; reflexivity]].
  unfold PaymentsTableMixin.format_total.
  destruct (String.eqb_spec cur "eur") as [->|Heur]; simpl.
  { destruct (PaymentsTableMixin.true_div_100 amount); simpl.
    - split; [discriminate | intros [[? _]|?]; done].
    - split; [by right | done]. }
  destruct (String.eqb_spec cur "usd") as [->|Husd]; simpl.
  { destruct (PaymentsTableMixin.true_div_100 amount); simpl.
    - split; [discriminate | intros [[_ ?]|?]; done].
    - split; [by right | done]. }
  split; [by left | done].
Qed.

(** Whole minor-unit amounts are rendered as the amount over 100 with two
    decimal places (checked for every amount from 0 to 299.99), followed
    by the suffix of the currency's branch. *)
Lemma all_from_spec (f : Z → bool) (count : nat) :
  ∀ first, PaymentsTableMixin.all_from f first count = true →
  ∀ z, first <= z < first + Z.of_nat count → f z = true.
Proof.
  induction count as [|count IH]; intros first Hall z Hz; [lia|].
  simpl in Hall. apply andb_true_iff in Hall as [Hfirst Hrest].
  destruct (Z.eq_dec z first) as [->|Hne]; [done|].
  apply (IH (first + 1)); [done | lia].
Qed.

Lemma two_decimals_exact_below_spec (bound : Z) :
  PaymentsTableMixin.two_decimals_exact_below bound = true →
  ∀ z, 0 <= z < bound → PaymentsTableMixin.two_decimals_exact z = true.
Proof.
  unfold PaymentsTableMixin.two_decimals_exact_below.
  intros Hall z Hz. apply (all_from_spec _ _ _ Hall). lia.
Qed.

Lemma two_decimals_exact_below_30000 :
  PaymentsTableMixin.two_decimals_exact_below 30000 = true.
Proof. vm_compute. reflexivity. Qed.

(** X20: For every whole amount from 0 to 29999 minor units, the dollar and
    the euro branch both write the amount over 100 with exactly two
    decimal places before their suffix. *)
Lemma format_total_amount (amount : Z) :
  0 <= amount < 30000 →
  PaymentsTableMixin.format_total (PaymentsTableMixin.PyInt amount) "usd"
  = Ok (PaymentsTableMixin.two_decimals amount ++ " $")
  ∧ PaymentsTableMixin.format_total (PaymentsTableMixin.PyInt amount) "eur"
    = Ok (PaymentsTableMixin.two_decimals amount ++ " â‚¬").
Proof.
  intros Hn.
  pose proof (two_decimals_exact_below_spec 30000 two_decimals_exact_below_30000
                amount Hn) as Hok.
  unfold PaymentsTableMixin.two_decimals_exact in Hok.
  unfold PaymentsTableMixin.format_total, PaymentsTableMixin.true_div_100.
  destruct (PaymentsTableMixin.int_true_div_100 amount) as [q|e]; [|discriminate].
  apply String.eqb_eq in Hok. simpl. by rewrite Hok.
Qed.

(** C8 fails on the code for euro totals: the amount is rendered as
    claimed, but the suffix the ["eur"] branch appends is not the euro
    sign.  The dollar total and the error for other currencies are as
    claimed. *)
Theorem format_total_eur_suffix :
  PaymentsTableMixin.format_total (PaymentsTableMixin.PyInt 4250) "eur"
  = Ok "42.50 â‚¬"
  ∧ PaymentsTableMixin.format_total (PaymentsTableMixin.PyInt 4250) "eur"
    ≠ Ok "42.50 €"
  ∧ PaymentsTableMixin.format_total (PaymentsTableMixin.PyInt 999) "usd"
    = Ok "9.99 $"
  ∧ PaymentsTableMixin.format_total (PaymentsTableMixin.PyInt 100) "gbp"
    = Raise "unknown currency gbp".
Proof.
  split; [|split; [|split]]; try (vm_compute; reflexivity).
  intros H. vm_compute in H. discriminate H.
Qed.

(** * Further properties of the modelled code *)

(** ** The tier catalogue: descriptions and provider identifiers *)

Lemma first_choice_Some (choices : list (string * string)) (value : string) :
  is_Some (TierField.first_choice choices value) ↔ value ∈ choices.*1.
Proof.
  induction choices as [|[k v] choices IH]; simpl.
  - split; [intros [? ?]; discriminate | intros H; by apply elem_of_nil in H].
  - destruct (String.eqb_spec k value) as [->|Hne].
    + split; [intros _; apply elem_of_cons; by left | eauto].
    + rewrite IH, elem_of_cons. split; [by right|]. by intros [->|?].
Qed.

Lemma dict_literal_lookup_Some (l : list (string * string)) (k : string) :
  is_Some (dict_literal l !! k) ↔ k ∈ l.*1.
Proof.
  rewrite <- not_eq_None_Some, dict_literal_lookup_None.
  split; [apply dec_stable | by intros ? ?].
Qed.

(** X1: The descriptions and the provider identifiers cover the same values,
    the three tier codes: for any other value [get_description] returns
    [None] and [get_stripe_id] raises [KeyError]. *)
Theorem tier_catalogue_consistent (value : string) :
  (is_Some (TierField.get_description value)
   ↔ value ∈ [TierField.CONTRIBUTOR; TierField.STARTER; TierField.PATRON])
  ∧ (is_Some (TierField.get_stripe_id value)
     ↔ value ∈ [TierField.CONTRIBUTOR; TierField.STARTER; TierField.PATRON])
  ∧ (TierField.get_description value = None ↔ TierField.get_stripe_id value = None).
Proof.
  assert (Hd : is_Some (TierField.get_description value)
               ↔ value ∈ [TierField.CONTRIBUTOR; TierField.STARTER; TierField.PATRON])
    by apply first_choice_Some.
  assert (Hs : is_Some (TierField.get_stripe_id value)
               ↔ value ∈ [TierField.CONTRIBUTOR; TierField.STARTER; TierField.PATRON])
    by apply dict_literal_lookup_Some.
  split; [done|]. split; [done|].
  rewrite !eq_None_not_Some, Hd, Hs. done.
Qed.

Lemma get_stripe_id_cases (tier sid : string) :
  TierField.get_stripe_id tier = Some sid →
  (tier, sid) ∈ [ (TierField.CONTRIBUTOR, "contributor-membership");
                  (TierField.STARTER, "starter-membership");
                  (TierField.PATRON, "patron-membership") ].
Proof. apply dict_literal_lookup_elem. Qed.

(** X2: Round trip through the provider identifier: the identifier
    [get_stripe_id] gives for a tier is mapped back to that tier by
    [get_tier_from_stripe_id], provided no configured product identifier
    reuses it. *)
Theorem get_tier_from_stripe_id_get_stripe_id (cfg : Settings) (tier sid : string) :
  TierField.get_stripe_id tier = Some sid →
  sid ∉ [ STRIPE_CONTRIBUTOR_PRODUCT_ID cfg; STRIPE_PATRON_PRODUCT_ID cfg;
          STRIPE_STARTER_PRODUCT_ID cfg ] →
  TierField.get_tier_from_stripe_id cfg sid = tier.
Proof.
  intros Hsid Hfresh. apply get_stripe_id_cases in Hsid.
  assert (Hc : STRIPE_CONTRIBUTOR_PRODUCT_ID cfg ≠ sid)
    by (intros <-; apply Hfresh; constructor).
  assert (Hp : STRIPE_PATRON_PRODUCT_ID cfg ≠ sid)
    by (intros <-; apply Hfresh; do 2 constructor).
  assert (Hs : STRIPE_STARTER_PRODUCT_ID cfg ≠ sid)
    by (intros <-; apply Hfresh; do 3 constructor).
  unfold TierField.get_tier_from_stripe_id, dict_get, TierField.STRIPE_ID_TO_TIER,
    TierField.STRIPE_ID_TO_TIER_items, dict_literal. simpl.
  rewrite !lookup_insert_ne by done.
  repeat (apply elem_of_cons in Hsid as [Hsid|Hsid];
          [inversion Hsid; subst; by vm_compute|]).
  by apply elem_of_nil in Hsid.
Qed.

Lemma get_tier_from_stripe_id_get_stripe_id_witness :
  TierField.get_stripe_id "pa" = Some "patron-membership"
  ∧ TierField.get_tier_from_stripe_id example_settings "patron-membership" = "pa".
Proof.
  split; [reflexivity|].
  apply (get_tier_from_stripe_id_get_stripe_id example_settings "pa"
           "patron-membership" eq_refl).
  apply (bool_decide_unpack _). vm_compute. exact I.
Defined.

(** X3: The sentinel is not a tier: for an identifier outside the mapping, and
    only for those, the value [get_tier_from_stripe_id] returns has no
    description and makes [get_stripe_id] raise [KeyError]. *)
Theorem unknown_tier_has_no_stripe_id (cfg : Settings) (stripe_id : string) :
  (TierField.get_stripe_id (TierField.get_tier_from_stripe_id cfg stripe_id) = None
   ↔ stripe_id ∉ (TierField.STRIPE_ID_TO_TIER_items cfg).*1)
  ∧ (TierField.get_description (TierField.get_tier_from_stripe_id cfg stripe_id) = None
     ↔ stripe_id ∉ (TierField.STRIPE_ID_TO_TIER_items cfg).*1).
Proof.
  assert (Hcases :
    ((stripe_id ∉ (TierField.STRIPE_ID_TO_TIER_items cfg).*1)
     ∧ TierField.get_tier_from_stripe_id cfg stripe_id = "Unknown")
    ∨ ((stripe_id ∈ (TierField.STRIPE_ID_TO_TIER_items cfg).*1)
       ∧ TierField.get_tier_from_stripe_id cfg stripe_id
         ∈ [TierField.CONTRIBUTOR; TierField.PATRON; TierField.STARTER])).
  { destruct (decide (stripe_id ∈ (TierField.STRIPE_ID_TO_TIER_items cfg).*1))
      as [Hin|Hnot].
    - right. split; [done|].
      eapply STRIPE_ID_TO_TIER_items_tier. by apply dict_get_elem.
    - left. split; [done|].
      unfold TierField.get_tier_from_stripe_id, dict_get, TierField.STRIPE_ID_TO_TIER.
      by rewrite (proj2 (dict_literal_lookup_None _ _) Hnot). }
  destruct Hcases as [[Hnot ->]|[Hin Htier]].
  - split; (split; [done | intros _; by vm_compute]).
  - split; (split; [|done]); intros Hnone; exfalso;
      repeat (apply elem_of_cons in Htier as [Htier|Htier];
              [rewrite Htier in Hnone; by vm_compute in Hnone|]);
      by apply elem_of_nil in Htier.
Qed.

(** ** Tier selection: the stored membership *)

(** X4: When the customer-creation call returns no error and the tier is not
    the starter tier, [form_valid] stores exactly one membership (the
    requesting member, the form's tier, the customer the provider
    returned), returns it, and creates no subscription record. *)
Theorem form_valid_paid_tier (sw : StripeWrapper)
    (create : StarterSubscription) (now : datetime)
    (alumni : Alumni) (form : Form) (d : Db) (customer : option string) :
  create_customer sw alumni = (customer, None) →
  cleaned_tier form ≠ TierField.STARTER →
  let run := SignupView.form_valid sw create now alumni form d in
  let membership :=
    {| mi_member := Some alumni; mi_tier := cleaned_tier form;
       mi_customer := customer |} in
  ret run = (Some membership, form)
  ∧ memberships (db run) = (memberships d ++ [membership])%list
  ∧ subscriptions (db run) = subscriptions d
  ∧ payment_intents (db run) = payment_intents d.
Proof.
  intros Hcust Htier. simpl. unfold SignupView.form_valid. rewrite Hcust.
  unfold form_save_uncommitted. simpl.
  destruct (String.eqb_spec (cleaned_tier form) TierField.STARTER);
    [contradiction|done].
Qed.

Lemma form_valid_paid_tier_witness :
  let form := {| cleaned_tier := "pa"; non_field_errors := [] |} in
  db (SignupView.form_valid example_wrapper example_starter_subscription
        5 1%nat form empty_db)
  = {| memberships :=
         [ {| mi_member := Some 1%nat; mi_tier := "pa";
              mi_customer := Some "cus_1" |} ];
       subscriptions := [];
       payment_intents := [] |}.
Proof.
  cbv zeta.
  pose proof (form_valid_paid_tier example_wrapper example_starter_subscription
                5 1%nat
                {| cleaned_tier := "pa"; non_field_errors := [] |} empty_db
                (Some "cus_1") eq_refl ltac:(discriminate))
    as (_ & Hm & Hs & Hp).
  destruct (db _) as [ms ss ps]. simpl in *. by subst.
Defined.

(** ** Subscription reconciliation: when setup is skipped *)

Lemma should_setup_component_closed_window_witness :
  let d := {| memberships := [];
              subscriptions :=
                [ {| si_member := 1%nat; si_start := Some 0; si_end := Some 100;
                     si_tier := "co" |} ];
              payment_intents := [] |} in
  SubscribeView.should_setup_component example_wrapper 50 1%nat d
  = {| ret := false; db := d; trace := [] |}.
Proof.
  cbv zeta.
  apply (should_setup_component_closed_window example_wrapper 50 1%nat _
           {| si_member := 1%nat; si_start := Some 0; si_end := Some 100;
              si_tier := "co" |} 0 100);
    [by left | reflexivity | reflexivity | reflexivity | lia].
Defined.

Lemma should_setup_component_sync_witness :
  trace (SubscribeView.should_setup_component example_wrapper 50 1%nat empty_db)
  = [SyncFromStripeCall 1%nat]
  ∧ ret (SubscribeView.should_setup_component example_wrapper 50 1%nat empty_db)
    = true.
Proof.
  pose proof (should_setup_component_sync example_wrapper 50 1%nat empty_db eq_refl)
    as (Ht & _ & Hr).
  split; [exact Ht | exact Hr].
Defined.

(** X7: Setup is skipped only for a member with an active record: whenever
    [should_setup_component] returns [False], either a stored record of
    the member or the record the provider sync returned is active now. *)
Theorem should_setup_component_false_active (sw : StripeWrapper) (now : datetime)
    (alumni : Alumni) (d : Db) :
  ret (SubscribeView.should_setup_component sw now alumni d) = false →
  (∃ s, In s (subscriptions d) ∧ si_member s = alumni ∧ active s now = true)
  ∨ (∃ s, (sync_from_stripe sw alumni (subscriptions d)).1 = Some s
          ∧ active s now = true).
Proof.
  unfold SubscribeView.should_setup_component.
  destruct (SubscribeView.query_exists _) eqn:Hex.
  - intros _. left. apply query_exists_In in Hex as [s Hs].
    apply active_local_rows_spec in Hs as (Hin & Hm & a & b & Ha & Hb & Hab).
    exists s. split; [done|]. split; [done|].
    unfold active. rewrite Ha, Hb.
    apply andb_true_iff. split; apply Z.leb_le; lia.
  - destruct (sync_from_stripe sw alumni (subscriptions d)) as [[s|] rows]; simpl;
      [|discriminate].
    intros Hret. right. exists s. split; [done|]. unfold active.
    destruct (si_start s) as [a|]; [|discriminate].
    destruct (Z.leb a now); [|discriminate].
    destruct (si_end s) as [b|]; [|done].
    destruct (Z.leb now b); [done|discriminate].
Qed.

Lemma should_setup_component_false_active_witness :
  let d := {| memberships := [];
              subscriptions :=
                [ {| si_member := 1%nat; si_start := Some 0; si_end := Some 100;
                     si_tier := "co" |} ];
              payment_intents := [] |} in
  ∃ s, (In s (subscriptions d) ∧ si_member s = 1%nat ∧ active s 50 = true)
       ∨ ((sync_from_stripe example_wrapper 1%nat (subscriptions d)).1 = Some s
          ∧ active s 50 = true).
Proof.
  cbv zeta.
  destruct (should_setup_component_false_active example_wrapper 50 1%nat
              {| memberships := [];
                 subscriptions :=
                   [ {| si_member := 1%nat; si_start := Some 0; si_end := Some 100;
                        si_tier := "co" |} ];
                 payment_intents := [] |} eq_refl) as [[s Hs]|[s Hs]];
    exists s; [by left | by right].
Defined.

(** ** Checkout initiation *)

(** Each tier is looked up under its own key: the price of a tier is the
    one configured for it, and any other value has none. *)
Lemma price_id_of_tiers (ps : SubscribeView.PriceSettings) :
  SubscribeView.price_id_of ps TierField.CONTRIBUTOR
  = SubscribeView.STRIPE_CONTRIBUTOR_PRICE_ID ps
  ∧ SubscribeView.price_id_of ps TierField.PATRON
    = SubscribeView.STRIPE_PATRON_PRICE_ID ps
  ∧ SubscribeView.price_id_of ps TierField.STARTER
    = SubscribeView.STRIPE_STARTER_PRICE_ID ps.
Proof.
  unfold SubscribeView.price_id_of, SubscribeView.price_id_map.
  split; [|split].
  - rewrite !lookup_insert_ne by done. by rewrite lookup_insert_eq.
  - rewrite lookup_insert_ne by done. by rewrite lookup_insert_eq.
  - by rewrite lookup_insert_eq.
Qed.

Lemma price_id_of_other (ps : SubscribeView.PriceSettings) (tier : string) :
  tier ∉ [TierField.CONTRIBUTOR; TierField.PATRON; TierField.STARTER] →
  SubscribeView.price_id_of ps tier = None.
Proof.
  intros Hnot. unfold SubscribeView.price_id_of, SubscribeView.price_id_map.
  rewrite !lookup_insert_ne by set_solver. by rewrite lookup_empty.
Qed.

(** X9: A membership whose tier is none of the three tier codes (the
    ["Unknown"] sentinel, for one), or whose tier has no price configured,
    never reaches the provider: no checkout session is requested,
    [form_valid] returns [None] and the form gets the invalid-tier
    message. *)
Theorem checkout_invalid_tier (create : SubscribeView.CheckoutCall → result (option string))
    (ps : SubscribeView.PriceSettings) (membership : MembershipInformation)
    (return_url : string) (form : Form) :
  mi_tier membership ∉ [TierField.CONTRIBUTOR; TierField.PATRON; TierField.STARTER]
  ∨ SubscribeView.price_id_of ps (mi_tier membership) = None
  ∨ SubscribeView.price_id_of ps (mi_tier membership) = Some "" →
  SubscribeView.form_valid create ps membership return_url form
  = (None, add_error form SubscribeView.INVALID_TIER, []).
Proof.
  intros H. unfold SubscribeView.form_valid.
  assert (Hfalsy : truthy (SubscribeView.price_id_of ps (mi_tier membership)) = false).
  { destruct H as [H|[H|H]].
    - by rewrite price_id_of_other.
    - by rewrite H.
    - by rewrite H. }
  by rewrite Hfalsy.
Qed.

Lemma checkout_invalid_tier_witness :
  SubscribeView.form_valid example_create example_prices
    {| mi_member := Some 1%nat; mi_tier := "Unknown"; mi_customer := Some "cus_1" |}
    "https://members.example.org/setup/subscription/" empty_form
  = (None,
     {| cleaned_tier := ""; non_field_errors := [SubscribeView.INVALID_TIER] |},
     []).
Proof.
  apply (checkout_invalid_tier example_create example_prices
           {| mi_member := Some 1%nat; mi_tier := "Unknown";
              mi_customer := Some "cus_1" |}).
  left. apply (bool_decide_unpack _). vm_compute. exact I.
Defined.

(** X10: For a tier with a configured price, exactly one checkout session is
    requested: for the member's customer, in subscription mode, for one
    unit of the tier's price, paid by card, with the success and the
    cancel address both the subscription setup page. *)
Theorem checkout_call_shape (create : SubscribeView.CheckoutCall → result (option string))
    (ps : SubscribeView.PriceSettings) (membership : MembershipInformation)
    (return_url : string) (form : Form) (price : string) :
  SubscribeView.price_id_of ps (mi_tier membership) = Some price →
  price ≠ "" →
  (SubscribeView.form_valid create ps membership return_url form).2
  = [ {| SubscribeView.api_key := SubscribeView.STRIPE_SECRET_KEY ps;
         SubscribeView.customer := mi_customer membership;
         SubscribeView.payment_method_types := ["card"];
         SubscribeView.mode := "subscription";
         SubscribeView.line_items := [(Some price, 1)];
         SubscribeView.success_url := return_url;
         SubscribeView.cancel_url := return_url |} ].
Proof.
  intros Hprice Hne. unfold SubscribeView.form_valid. rewrite Hprice. simpl.
  destruct (String.eqb_spec price ""); [contradiction|]. simpl.
  destruct (create _) as [[url|]|e]; simpl; try done.
  by destruct (String.eqb url "").
Qed.

Lemma checkout_call_shape_witness :
  SubscribeView.line_items <$>
    (SubscribeView.form_valid failing_create example_prices patron_membership
       "https://members.example.org/setup/subscription/" empty_form).2
  = [[(Some "price_pa", 1)]].
Proof.
  by rewrite (checkout_call_shape failing_create example_prices patron_membership
                "https://members.example.org/setup/subscription/" empty_form
                "price_pa" eq_refl ltac:(discriminate)).
Defined.

(** X11: [form_valid] returns a URL exactly when the tier has a configured
    price and the provider answered the checkout request with a non-empty
    session URL; the URL returned is that one, and the form is left
    without errors added. *)
Theorem checkout_returns_url_iff (create : SubscribeView.CheckoutCall → result (option string))
    (ps : SubscribeView.PriceSettings) (membership : MembershipInformation)
    (return_url : string) (form : Form) (url : string) :
  let out := SubscribeView.form_valid create ps membership return_url form in
  (out.1.1 = Some url
   ↔ truthy (SubscribeView.price_id_of ps (mi_tier membership)) = true
     ∧ url ≠ ""
     ∧ ∃ call, out.2 = [call] ∧ create call = Ok (Some url))
  ∧ (out.1.1 = Some url → out.1.2 = form).
Proof.
  simpl. unfold SubscribeView.form_valid.
  destruct (truthy (SubscribeView.price_id_of ps (mi_tier membership))); simpl.
  - destruct (create _) as [[u|]|e] eqn:E; simpl.
    + destruct (String.eqb_spec u "") as [->|Hne]; simpl.
      * split; [|done]. split; [done|].
        intros (_ & Hne & call & Hcall & Hcreate).
        inversion Hcall; subst. rewrite E in Hcreate. congruence.
      * split; [|done]. split.
        -- intros [= ->]. eauto 10.
        -- intros (_ & _ & call & Hcall & Hcreate).
           inversion Hcall; subst. rewrite E in Hcreate. congruence.
    + split; [|done]. split; [done|].
      intros (_ & _ & call & Hcall & Hcreate).
      inversion Hcall; subst. rewrite E in Hcreate. congruence.
    + split; [|done]. split; [done|].
      intros (_ & _ & call & Hcall & Hcreate).
      inversion Hcall; subst. rewrite E in Hcreate. congruence.
  - split; [|done]. split; [done|]. intros [? _]. discriminate.
Qed.

Lemma checkout_returns_url_iff_witness :
  (SubscribeView.form_valid example_create example_prices patron_membership
     "https://members.example.org/setup/subscription/" empty_form).1
  = (Some "https://checkout.stripe.com/c/pay/cs_test_1", empty_form).
Proof.
  pose proof (checkout_returns_url_iff example_create example_prices
                patron_membership "https://members.example.org/setup/subscription/"
                empty_form "https://checkout.stripe.com/c/pay/cs_test_1")
    as [Hiff Hform].
  assert (Hurl : (SubscribeView.form_valid example_create example_prices
                    patron_membership
                    "https://members.example.org/setup/subscription/"
                    empty_form).1.1
                 = Some "https://checkout.stripe.com/c/pay/cs_test_1").
  { apply Hiff. split; [reflexivity|]. split; [discriminate|].
    eexists. split; reflexivity. }
  specialize (Hform Hurl).
  destruct (SubscribeView.form_valid _ _ _ _ _) as [[u f] calls].
  simpl in *. by subst.
Defined.

(** X12: Whenever [form_valid] returns [None], exactly one message was added
    to the form, and it is one of the two fixed messages: the text of an
    exception raised by the provider call never reaches the form. *)
Theorem checkout_failure_message (create : SubscribeView.CheckoutCall → result (option string))
    (ps : SubscribeView.PriceSettings) (membership : MembershipInformation)
    (return_url : string) (form : Form) :
  let out := SubscribeView.form_valid create ps membership return_url form in
  out.1.1 = None →
  (out.1.2 = add_error form SubscribeView.INVALID_TIER ∧ out.2 = [])
  ∨ (out.1.2 = add_error form SubscribeView.CHECKOUT_ERROR ∧ length out.2 = 1%nat).
Proof.
  simpl. unfold SubscribeView.form_valid.
  destruct (truthy (SubscribeView.price_id_of ps (mi_tier membership))); simpl;
    [|by left].
  destruct (create _) as [[u|]|e]; simpl; try (by right).
  destruct (String.eqb u ""); simpl; [by right | discriminate].
Qed.

Lemma checkout_failure_message_witness :
  (SubscribeView.form_valid failing_create example_prices patron_membership
     "https://members.example.org/setup/subscription/" empty_form).1.2
  = {| cleaned_tier := ""; non_field_errors := [SubscribeView.CHECKOUT_ERROR] |}.
Proof.
  destruct (checkout_failure_message failing_create example_prices
              patron_membership "https://members.example.org/setup/subscription/"
              empty_form eq_refl) as [[_ Hcalls]|[Hform _]].
  - discriminate Hcalls.
  - exact Hform.
Defined.

(** ** Comprehensions that may raise *)

Lemma comprehension_Ok {A B : Type} (f : A → result B) (l : list A) (ys : list B) :
  comprehension f l = Ok ys ↔ Forall2 (λ x y, f x = Ok y) l ys.
Proof.
  revert ys. induction l as [|x l IH]; intros ys; simpl.
  - split; [intros [= <-]; constructor | intros H; by inversion H].
  - destruct (f x) as [y|e] eqn:Ex; simpl.
    + destruct (comprehension f l) as [zs|e] eqn:El; simpl.
      * split.
        -- intros [= <-]. constructor; [done|]. by apply IH.
        -- intros H. inversion H as [|? y' ? zs' Hy Hzs]; subst.
           rewrite Ex in Hy. injection Hy as <-.
           apply IH in Hzs. by injection Hzs as <-.
      * split; [discriminate|].
        intros H. inversion H as [|? y' ? zs' Hy Hzs]; subst.
        apply IH in Hzs. discriminate.
    + split; [discriminate|].
      intros H. inversion H as [|? y' ? zs' Hy Hzs]; subst. congruence.
Qed.

(** The exception a comprehension raises is that of its first failing
    element. *)
Lemma comprehension_Raise {A B : Type} (f : A → result B) (l : list A) (e : string) :
  comprehension f l = Raise e ↔
  ∃ before x after, l = (before ++ x :: after)%list
                    ∧ Forall (λ x, raises (f x) = false) before
                    ∧ f x = Raise e.
Proof.
  induction l as [|x l IH]; simpl.
  - split; [discriminate|]. intros (before & y & after & Hl & _).
    by destruct before.
  - destruct (f x) as [y|e'] eqn:Ex; simpl.
    + assert (Hstep : bind_result (comprehension f l) (λ ys, Ok (y :: ys)) = Raise e
                      ↔ comprehension f l = Raise e).
      { destruct (comprehension f l); simpl; split; congruence. }
      rewrite Hstep, IH. split.
      * intros (before & z & after & -> & Hok & Hz).
        exists (x :: before), z, after. split; [done|]. split; [|done].
        constructor; [by rewrite Ex | done].
      * intros (before & z & after & Hl & Hok & Hz).
        destruct before as [|b before]; simpl in Hl; injection Hl as -> ->.
        -- congruence.
        -- apply Forall_cons in Hok as [_ Hok]. eauto 10.
    + split.
      * intros [= ->]. exists [], x, l. by repeat split.
      * intros (before & z & after & Hl & Hok & Hz).
        destruct before as [|b before]; simpl in Hl; injection Hl as -> ->.
        -- congruence.
        -- apply Forall_cons in Hok as [Hb _]. rewrite Ex in Hb. discriminate.
Qed.

Lemma comprehension_raises {A B : Type} (f : A → result B) (l : list A) :
  raises (comprehension f l) = true ↔ Exists (λ x, raises (f x) = true) l.
Proof.
  induction l as [|x l IH]; simpl.
  - split; [discriminate | intros H; inversion H].
  - rewrite Exists_cons. destruct (f x) as [y|e]; simpl.
    + destruct (comprehension f l) as [zs|e]; simpl in *.
      * split; [discriminate|]. intros [H|H]; [discriminate|]. by apply IH.
      * split; [|done]. intros _. right. by apply IH.
    + split; [by left | done].
Qed.

(** ** Payment methods *)

Lemma subscript_raises (d : gmap string string) (key : string) :
  raises (subscript d key) = true ↔ d !! key = None.
Proof. unfold subscript. destruct (d !! key); simpl; split; done. Qed.

(** X13: [format_method] raises exactly when a key it reads is missing: the
    kind, or one of the fields of a card or of a SEPA debit. *)
Theorem format_method_raises_iff (source : gmap string string) :
  raises (PaymentsTableMixin.format_method source) = true
  ↔ source !! "kind" = None
    ∨ (source !! "kind" = Some "card"
       ∧ ∃ key, key ∈ ["brand"; "last4"; "exp_month"; "exp_year"]
                ∧ source !! key = None)
    ∨ (source !! "kind" = Some "sepa"
       ∧ ∃ key, key ∈ ["last4"; "mandate_url"; "mandate_reference"]
                ∧ source !! key = None).
Proof.
  unfold PaymentsTableMixin.format_method, subscript.
  destruct (source !! "kind") as [kind|] eqn:Hkind; simpl; [|by split; eauto].
  destruct (String.eqb_spec kind "card") as [->|Hcard].
  - destruct (source !! "brand") eqn:H1; simpl;
      [|split; [intros _; right; left; split; [done|]; exists "brand"; set_solver | done]].
    destruct (source !! "last4") eqn:H2; simpl;
      [|split; [intros _; right; left; split; [done|]; exists "last4"; set_solver | done]].
    destruct (source !! "exp_month") eqn:H3; simpl;
      [|split; [intros _; right; left; split; [done|]; exists "exp_month"; set_solver | done]].
    destruct (source !! "exp_year") eqn:H4; simpl;
      [|split; [intros _; right; left; split; [done|]; exists "exp_year"; set_solver | done]].
    split; [done|].
    intros [?|[(_ & key & Hkey & Hnone)|([= ?] & _)]]; [done|].
    repeat (apply elem_of_cons in Hkey as [->|Hkey]; [congruence|]).
    by apply elem_of_nil in Hkey.
  - destruct (String.eqb_spec kind "sepa") as [->|Hsepa].
    + destruct (source !! "last4") eqn:H1; simpl;
        [|split; [intros _; right; right; split; [done|]; exists "last4"; set_solver | done]].
      destruct (source !! "mandate_url") eqn:H2; simpl;
        [|split; [intros _; right; right; split; [done|]; exists "mandate_url"; set_solver | done]].
      destruct (source !! "mandate_reference") eqn:H3; simpl;
        [|split; [intros _; right; right; split; [done|];
                  exists "mandate_reference"; set_solver | done]].
      split; [done|].
      intros [?|[([= ?] & _)|(_ & key & Hkey & Hnone)]]; [done|].
      repeat (apply elem_of_cons in Hkey as [->|Hkey]; [congruence|]).
      by apply elem_of_nil in Hkey.
    + simpl. split; [done|].
      intros [?|[([= ?] & _)|([= ?] & _)]]; done.
Qed.

(** X14: A method of any kind other than card and SEPA debit is described by
    the fixed "unknown payment method" text, whatever else the source
    holds: nothing is read beyond the kind and nothing can fail. *)
Theorem format_method_unknown_kind (source : gmap string string) (kind : string) :
  source !! "kind" = Some kind → kind ≠ "card" → kind ≠ "sepa" →
  PaymentsTableMixin.format_method source
  = Ok "Unknown Payment Method. Please contact support. ".
Proof.
  intros Hkind Hcard Hsepa. unfold PaymentsTableMixin.format_method, subscript.
  rewrite Hkind. simpl.
  destruct (String.eqb_spec kind "card"); [contradiction|].
  by destruct (String.eqb_spec kind "sepa"); [contradiction|].
Qed.

Lemma format_method_unknown_kind_witness :
  PaymentsTableMixin.format_method example_wallet
  = Ok "Unknown Payment Method. Please contact support. ".
Proof.
  apply (format_method_unknown_kind example_wallet "paypal");
    [reflexivity | discriminate | discriminate].
Defined.

(** X15: A card holding its four fields, and a SEPA debit holding its three,
    are described from those fields alone: two sources that agree on the
    kind and on the fields of that kind get the same description, and it
    is never an exception. *)
Theorem format_method_complete (source : gmap string string) :
  (∀ brand last4 exp_month exp_year,
     source !! "kind" = Some "card" → source !! "brand" = Some brand →
     source !! "last4" = Some last4 → source !! "exp_month" = Some exp_month →
     source !! "exp_year" = Some exp_year →
     PaymentsTableMixin.format_method source
     = Ok (brand ++ " Card ending in " ++ last4 ++ " (valid until "
           ++ exp_month ++ "/" ++ exp_year ++ ")"))
  ∧ (∀ last4 mandate_url mandate_reference,
       source !! "kind" = Some "sepa" → source !! "last4" = Some last4 →
       source !! "mandate_url" = Some mandate_url →
       source !! "mandate_reference" = Some mandate_reference →
       PaymentsTableMixin.format_method source
       = Ok ("Bank Account ending in " ++ last4 ++ " (<a href="
             ++ PaymentsTableMixin.dquote ++ mandate_url ++ PaymentsTableMixin.dquote
             ++ " target=" ++ PaymentsTableMixin.dquote ++ "_blank"
             ++ PaymentsTableMixin.dquote ++ ">SEPA Mandate Reference "
             ++ mandate_reference ++ "</a>)")).
Proof.
  unfold PaymentsTableMixin.format_method, subscript. split.
  - intros brand last4 exp_month exp_year -> -> -> -> ->. reflexivity.
  - intros last4 mandate_url mandate_reference -> -> -> ->. reflexivity.
Qed.

Lemma format_method_complete_witness :
  PaymentsTableMixin.format_method example_card
  = Ok "Visa Card ending in 4242 (valid until 12/2030)"
  ∧ PaymentsTableMixin.format_method example_sepa
    = Ok ("Bank Account ending in 3000 (<a href=" ++ PaymentsTableMixin.dquote
          ++ "https://hooks.stripe.com/mandate/1" ++ PaymentsTableMixin.dquote
          ++ " target=" ++ PaymentsTableMixin.dquote ++ "_blank"
          ++ PaymentsTableMixin.dquote
          ++ ">SEPA Mandate Reference ABC123</a>)").
Proof.
  split.
  - exact (proj1 (format_method_complete example_card) "Visa" "4242" "12" "2030"
             eq_refl eq_refl eq_refl eq_refl eq_refl).
  - exact (proj2 (format_method_complete example_sepa) "3000"
             "https://hooks.stripe.com/mandate/1" "ABC123"
             eq_refl eq_refl eq_refl eq_refl).
Defined.

(** X16: [get_method_table]: when the wrapper reports an error, the fixed
    generic message is returned in its place and the methods are handed
    on as received; when it reports none, every method is described, in
    order; and a single method that [format_method] cannot describe makes
    the whole call raise. *)
Theorem get_method_table_outcomes
    (get_methods_table : string → option (list (gmap string string)) * option string)
    (customer : string) (methods : option (list (gmap string string))) :
  (∀ provider_text, get_methods_table customer = (methods, Some provider_text) →
     PaymentsTableMixin.get_method_table get_methods_table customer
     = Ok (PaymentsTableMixin.RawMethods methods,
           Some PaymentsTableMixin.GENERIC_ERROR))
  ∧ (∀ sources, get_methods_table customer = (Some sources, None) →
       Forall (λ source, raises (PaymentsTableMixin.format_method source) = false)
         sources →
       ∃ descriptions,
         PaymentsTableMixin.get_method_table get_methods_table customer
         = Ok (PaymentsTableMixin.Methods descriptions, None)
         ∧ Forall2 (λ source description,
                      PaymentsTableMixin.format_method source = Ok description)
             sources descriptions)
  ∧ (∀ sources, get_methods_table customer = (Some sources, None) →
       Exists (λ source, raises (PaymentsTableMixin.format_method source) = true)
         sources →
       raises (PaymentsTableMixin.get_method_table get_methods_table customer) = true).
Proof.
  unfold PaymentsTableMixin.get_method_table. split; [|split].
  - by intros provider_text ->.
  - intros sources -> Hall.
    destruct (comprehension PaymentsTableMixin.format_method sources)
      as [descriptions|e] eqn:E; simpl.
    + exists descriptions. split; [done|]. by apply comprehension_Ok.
    + exfalso.
      assert (Hex : raises (comprehension PaymentsTableMixin.format_method sources)
                    = true) by by rewrite E.
      apply comprehension_raises in Hex. apply Exists_exists in Hex as (x & Hx & Hr).
      rewrite Forall_forall in Hall. specialize (Hall x Hx). congruence.
  - intros sources -> Hex. apply comprehension_raises in Hex.
    by destruct (comprehension PaymentsTableMixin.format_method sources).
Qed.

Lemma get_method_table_outcomes_witness :
  PaymentsTableMixin.get_method_table (λ _, (None, Some "Connection refused")) "cus_1"
  = Ok (PaymentsTableMixin.RawMethods None, Some PaymentsTableMixin.GENERIC_ERROR)
  ∧ raises (PaymentsTableMixin.get_method_table
              (λ _, (Some [example_card; broken_card], None)) "cus_1") = true.
Proof.
  split.
  - exact (proj1 (get_method_table_outcomes (λ _, (None, Some "Connection refused"))
                    "cus_1" None) "Connection refused" eq_refl).
  - apply (proj2 (proj2 (get_method_table_outcomes
                           (λ _, (Some [example_card; broken_card], None))
                           "cus_1" None)) [example_card; broken_card] eq_refl).
    apply Exists_cons. right. apply Exists_cons. left. reflexivity.
Defined.

(** ** The invoice table *)

Lemma format_description_raises (date_format : Z → string → result string)
    (line : PaymentsTableMixin.InvoiceLine) :
  (raises (PaymentsTableMixin.format_description date_format line) = false
   ↔ PaymentsTableMixin.describable date_format line)
  ∧ (∀ e, PaymentsTableMixin.format_description date_format line = Raise e →
          e = "Non-subscription without description"
          ∨ e = "'NoneType' object has no attribute 'name'"
          ∨ e = "'NoneType' object has no attribute 'start'"
          ∨ ∃ epoch format, date_format epoch format = Raise e).
Proof.
  unfold PaymentsTableMixin.format_description, PaymentsTableMixin.describable,
    PaymentsTableMixin.format_datetime.
  destruct (PaymentsTableMixin.description line) as [d|]; simpl.
  { split; [split; [by left | done] | discriminate]. }
  destruct (String.eqb_spec (PaymentsTableMixin.line_type line) "subscription")
    as [Heq|Hne]; simpl.
  2: { split; [split; [done | by intros [?|[? _]]] | intros e [= <-]; by left]. }
  destruct (PaymentsTableMixin.plan line) as [p|]; simpl.
  2: { split; [split; [done | by intros [?|(_ & ? & _)]]
              | intros e [= <-]; right; by left]. }
  destruct (PaymentsTableMixin.period line) as [q|]; simpl.
  2: { split; [split; [done | by intros [?|(_ & _ & ? & ? & _)]]
              | intros e [= <-]; right; right; by left]. }
  destruct (date_format (PaymentsTableMixin.start q) _) as [s|es] eqn:Es; simpl.
  2: { split; [split; [done|] | intros e [= <-]; do 3 right; eauto].
       intros [?|(_ & _ & q' & [= <-] & Hs & _)]; [done|]. by rewrite Es in Hs. }
  destruct (date_format (PaymentsTableMixin.end_ q) _) as [t|et] eqn:Et; simpl.
  2: { split; [split; [done|] | intros e [= <-]; do 3 right; eauto].
       intros [?|(_ & _ & q' & [= <-] & _ & Ht)]; [done|]. by rewrite Et in Ht. }
  split; [|discriminate]. split; [|done]. intros _. right.
  split; [done|]. split; [done|]. exists q. by rewrite Es, Et.
Qed.

Lemma format_total_cases (amount : PaymentsTableMixin.number) (cur : string) :
  (raises (PaymentsTableMixin.format_total amount cur) = false
   ↔ (cur = "eur" ∨ cur = "usd")
     ∧ raises (PaymentsTableMixin.true_div_100 amount) = false)
  ∧ (∀ e, PaymentsTableMixin.format_total amount cur = Raise e →
          e = "unknown currency " ++ cur ∨ e = PaymentsTableMixin.OVERFLOW).
Proof.
  unfold PaymentsTableMixin.format_total.
  pose proof (true_div_100_Raise amount) as Hdiv.
  destruct (String.eqb_spec cur "eur") as [->|Heur]; simpl.
  { destruct (PaymentsTableMixin.true_div_100 amount) as [q|e']; simpl.
    - split; [split; [intros _; split; [by left | done] | done] | discriminate].
    - split; [split; [done | by intros [_ ?]] | intros e [= <-]; right; by apply Hdiv]. }
  destruct (String.eqb_spec cur "usd") as [->|Husd]; simpl.
  { destruct (PaymentsTableMixin.true_div_100 amount) as [q|e']; simpl.
    - split; [split; [intros _; split; [by right | done] | done] | discriminate].
    - split; [split; [done | by intros [_ ?]] | intros e [= <-]; right; by apply Hdiv]. }
  split; [split; [done | by intros [[?|?] _]] | intros e [= <-]; by left].
Qed.

Lemma comprehension_no_raise {A B : Type} (f : A → result B) (l : list A) :
  raises (comprehension f l) = false ↔ Forall (λ x, raises (f x) = false) l.
Proof.
  rewrite <- not_true_iff_false, comprehension_raises, <- Forall_Exists_neg.
  apply Forall_iff. intros x. apply not_true_iff_false.
Qed.

Lemma invoice_row_raises (date_format : Z → string → result string)
    (iv : PaymentsTableMixin.Invoice) :
  raises (PaymentsTableMixin.invoice_row date_format iv) = false
  ↔ PaymentsTableMixin.showable date_format iv.
Proof.
  unfold PaymentsTableMixin.invoice_row, PaymentsTableMixin.showable,
    PaymentsTableMixin.format_datetime, PaymentsTableMixin.item.
  destruct (PaymentsTableMixin.iv_lines iv) as [lines|]; simpl.
  2: { split; [done | by intros ((? & ? & _) & _)]. }
  assert (Hlines :
    raises (comprehension (PaymentsTableMixin.format_description date_format) lines)
    = false ↔ Forall (PaymentsTableMixin.describable date_format) lines).
  { rewrite comprehension_no_raise. apply Forall_iff. intros line.
    apply format_description_raises. }
  destruct (comprehension _ lines) as [texts|e]; simpl in *.
  2: { split; [done|]. intros ((? & [= <-] & Hall) & _). by apply Hlines. }
  destruct (PaymentsTableMixin.iv_date iv) as [date|]; simpl.
  2: { split; [done | by intros (_ & (? & ? & _) & _)]. }
  destruct (date_format date "DATETIME_FORMAT") as [shown|e] eqn:Edate; simpl.
  2: { split; [done|]. intros (_ & (? & [= <-] & Hdate) & _).
       rewrite Edate in Hdate. done. }
  destruct (PaymentsTableMixin.iv_total iv) as [[amount cur]|]; simpl.
  2: { split; [done | by intros (_ & _ & (? & ? & ? & _) & _)]. }
  pose proof (proj1 (format_total_cases amount cur)) as Htotal.
  destruct (PaymentsTableMixin.format_total amount cur) as [total|e]; simpl in *.
  2: { split; [done|]. intros (_ & _ & (? & ? & [= <- <-] & Hcur & Hdiv) & _).
       by apply Htotal. }
  apply proj1 in Htotal. specialize (Htotal eq_refl) as [Hcur Hdiv].
  destruct (PaymentsTableMixin.iv_paid iv) as [paid|]; simpl.
  2: { split; [done | by intros (_ & _ & _ & ? & _)]. }
  destruct (PaymentsTableMixin.iv_closed iv) as [closed|]; simpl.
  2: { split; [done | by intros (_ & _ & _ & _ & ? & _)]. }
  destruct (PaymentsTableMixin.iv_upcoming iv) as [upcoming|]; simpl.
  2: { split; [done | by intros (_ & _ & _ & _ & _ & ?)]. }
  split; [|done]. intros _.
  split; [exists lines; split; [done | by apply Hlines]|].
  split; [exists date; by rewrite Edate|].
  split; [by exists amount, cur|].
  done.
Qed.

Lemma item_Raise {A : Type} (key : string) (value : option A) (e : string) :
  PaymentsTableMixin.item key value = Raise e → e = "'" ++ key ++ "'".
Proof. destruct value; simpl; congruence. Qed.

Lemma invoice_row_Raise (date_format : Z → string → result string)
    (iv : PaymentsTableMixin.Invoice) (e : string) :
  PaymentsTableMixin.invoice_row date_format iv = Raise e →
  e ∈ ["'lines'"; "'date'"; "'total'"; "'paid'"; "'closed'"; "'upcoming'"]
  ∨ e = "Non-subscription without description"
  ∨ e = "'NoneType' object has no attribute 'name'"
  ∨ e = "'NoneType' object has no attribute 'start'"
  ∨ e = "integer division result too large for a float"
  ∨ (∃ amount cur, PaymentsTableMixin.iv_total iv = Some (amount, cur)
                   ∧ e = "unknown currency " ++ cur)
  ∨ (∃ epoch format, date_format epoch format = Raise e).
Proof.
  unfold PaymentsTableMixin.invoice_row, PaymentsTableMixin.format_datetime.
  destruct (PaymentsTableMixin.iv_lines iv) as [lines|]; simpl.
  2: { intros [= <-]. left. set_unfold. tauto. }
  destruct (comprehension _ lines) as [texts|e'] eqn:E; simpl.
  2: { intros [= ->].
       apply comprehension_Raise in E as (before & line & after & _ & _ & Hline).
       apply (proj2 (format_description_raises date_format line)) in Hline.
       tauto. }
  destruct (PaymentsTableMixin.iv_date iv) as [date|]; simpl.
  2: { intros [= <-]. left. set_unfold. tauto. }
  destruct (date_format date "DATETIME_FORMAT") as [shown|e'] eqn:Edate; simpl.
  2: { intros [= ->]. do 6 right. eauto. }
  destruct (PaymentsTableMixin.iv_total iv) as [[amount cur]|]; simpl.
  2: { intros [= <-]. left. set_unfold. tauto. }
  destruct (PaymentsTableMixin.format_total amount cur) as [total|e'] eqn:T; simpl.
  2: { intros [= ->]. apply (proj2 (format_total_cases amount cur)) in T as [->| ->].
       - do 5 right. left. eauto.
       - do 4 right. by left. }
  destruct (PaymentsTableMixin.iv_paid iv) as [paid|]; simpl.
  2: { intros [= <-]. left. set_unfold. tauto. }
  destruct (PaymentsTableMixin.iv_closed iv) as [closed|]; simpl.
  2: { intros [= <-]. left. set_unfold. tauto. }
  destruct (PaymentsTableMixin.iv_upcoming iv) as [upcoming|]; simpl.
  2: { intros [= <-]. left. set_unfold. tauto. }
  discriminate.
Qed.

Lemma invoice_row_Ok (date_format : Z → string → result string)
    (iv : PaymentsTableMixin.Invoice) (row : PaymentsTableMixin.InvoiceRow) :
  PaymentsTableMixin.invoice_row date_format iv = Ok row →
  ∃ lines date amount cur,
    PaymentsTableMixin.iv_lines iv = Some lines
    ∧ Forall2 (λ line text,
                 PaymentsTableMixin.format_description date_format line = Ok text)
        lines (PaymentsTableMixin.row_lines row)
    ∧ PaymentsTableMixin.iv_date iv = Some date
    ∧ date_format date "DATETIME_FORMAT" = Ok (PaymentsTableMixin.row_date row)
    ∧ PaymentsTableMixin.iv_total iv = Some (amount, cur)
    ∧ PaymentsTableMixin.format_total amount cur
      = Ok (PaymentsTableMixin.row_total row)
    ∧ PaymentsTableMixin.iv_paid iv = Some (PaymentsTableMixin.row_paid row)
    ∧ PaymentsTableMixin.iv_closed iv = Some (PaymentsTableMixin.row_closed row)
    ∧ PaymentsTableMixin.iv_upcoming iv = Some (PaymentsTableMixin.row_upcoming row).
Proof.
  unfold PaymentsTableMixin.invoice_row, PaymentsTableMixin.format_datetime.
  destruct (PaymentsTableMixin.iv_lines iv) as [lines|]; simpl; [|discriminate].
  destruct (comprehension _ lines) as [texts|e'] eqn:E; simpl; [|discriminate].
  destruct (PaymentsTableMixin.iv_date iv) as [date|]; simpl; [|discriminate].
  destruct (date_format date "DATETIME_FORMAT") as [shown|e'] eqn:Edate; simpl;
    [|discriminate].
  destruct (PaymentsTableMixin.iv_total iv) as [[amount cur]|]; simpl; [|discriminate].
  destruct (PaymentsTableMixin.format_total amount cur) as [total|e'] eqn:T; simpl;
    [|discriminate].
  destruct (PaymentsTableMixin.iv_paid iv) as [paid|]; simpl; [|discriminate].
  destruct (PaymentsTableMixin.iv_closed iv) as [closed|]; simpl; [|discriminate].
  destruct (PaymentsTableMixin.iv_upcoming iv) as [upcoming|]; simpl; [|discriminate].
  intros [= <-]. simpl. apply comprehension_Ok in E.
  exists lines, date, amount, cur. done.
Qed.

(** X17: [get_invoice_table] reports no error exactly when the wrapper
    returned invoices without an error and every invoice can be shown:
    it has all six keys, each of its lines has a description or is a
    subscription line with a plan and a period whose two dates can be
    formatted, its date can be formatted, its total is in euros or
    dollars and the division of its amount does not overflow. *)
Theorem get_invoice_table_no_error_iff
    (get_payment_table : string → option (list PaymentsTableMixin.Invoice) * option string)
    (date_format : Z → string → result string) (customer : string) :
  (PaymentsTableMixin.get_invoice_table get_payment_table date_format customer).2 = None
  ↔ ∃ invoices, get_payment_table customer = (Some invoices, None)
      ∧ Forall (λ iv,
          (∃ lines, PaymentsTableMixin.iv_lines iv = Some lines
             ∧ Forall (λ line,
                 PaymentsTableMixin.description line ≠ None
                 ∨ (PaymentsTableMixin.line_type line = "subscription"
                    ∧ PaymentsTableMixin.plan line ≠ None
                    ∧ ∃ period,
                        PaymentsTableMixin.period line = Some period
                        ∧ raises (date_format (PaymentsTableMixin.start period)
                                    "DATE_FORMAT") = false
                        ∧ raises (date_format (PaymentsTableMixin.end_ period)
                                    "DATE_FORMAT") = false)) lines)
          ∧ (∃ date, PaymentsTableMixin.iv_date iv = Some date
                     ∧ raises (date_format date "DATETIME_FORMAT") = false)
          ∧ (∃ amount cur, PaymentsTableMixin.iv_total iv = Some (amount, cur)
                           ∧ (cur = "eur" ∨ cur = "usd")
                           ∧ raises (PaymentsTableMixin.true_div_100 amount) = false)
          ∧ PaymentsTableMixin.iv_paid iv ≠ None
          ∧ PaymentsTableMixin.iv_closed iv ≠ None
          ∧ PaymentsTableMixin.iv_upcoming iv ≠ None) invoices.
Proof.
  change (
    (PaymentsTableMixin.get_invoice_table get_payment_table date_format customer).2 = None
    ↔ ∃ invoices, get_payment_table customer = (Some invoices, None)
        ∧ Forall (PaymentsTableMixin.showable date_format) invoices).
  unfold PaymentsTableMixin.get_invoice_table.
  destruct (get_payment_table customer) as [[ivs|] [err|]]; simpl;
    try (split; [discriminate | by intros (? & [= ] & _)]).
  assert (Hall :
    raises (comprehension (PaymentsTableMixin.invoice_row date_format) ivs) = false
    ↔ Forall (PaymentsTableMixin.showable date_format) ivs).
  { rewrite comprehension_no_raise. apply Forall_iff. intros iv.
    apply invoice_row_raises. }
  destruct (comprehension _ ivs) as [rows|e]; simpl in *.
  - split; [|done]. intros _. exists ivs. split; [done|]. by apply Hall.
  - split; [discriminate|]. intros (ivs' & [= <-] & Hok).
    apply Hall in Hok. discriminate.
Qed.

(** X18: The table is built whole or not at all.  When rows are returned there
    is no error and there is one row per invoice, in order, carrying the
    invoice's flags, its formatted date and total and one text per line;
    otherwise what the wrapper returned is handed back untouched. *)
Theorem get_invoice_table_rows
    (get_payment_table : string → option (list PaymentsTableMixin.Invoice) * option string)
    (date_format : Z → string → result string) (customer : string) :
  let out := PaymentsTableMixin.get_invoice_table get_payment_table date_format customer in
  (∀ rows, out.1 = PaymentsTableMixin.Rows rows →
     out.2 = None
     ∧ ∃ invoices, get_payment_table customer = (Some invoices, None)
         ∧ Forall2 (λ iv row,
             ∃ lines date amount cur,
               PaymentsTableMixin.iv_lines iv = Some lines
               ∧ Forall2 (λ line text,
                     PaymentsTableMixin.format_description date_format line = Ok text)
                   lines (PaymentsTableMixin.row_lines row)
               ∧ PaymentsTableMixin.iv_date iv = Some date
               ∧ date_format date "DATETIME_FORMAT"
                 = Ok (PaymentsTableMixin.row_date row)
               ∧ PaymentsTableMixin.iv_total iv = Some (amount, cur)
               ∧ PaymentsTableMixin.format_total amount cur
                 = Ok (PaymentsTableMixin.row_total row)
               ∧ PaymentsTableMixin.iv_paid iv
                 = Some (PaymentsTableMixin.row_paid row)
               ∧ PaymentsTableMixin.iv_closed iv
                 = Some (PaymentsTableMixin.row_closed row)
               ∧ PaymentsTableMixin.iv_upcoming iv
                 = Some (PaymentsTableMixin.row_upcoming row))
             invoices rows)
  ∧ (∀ raw, out.1 = PaymentsTableMixin.RawInvoices raw →
       raw = (get_payment_table customer).1 ∧ out.2 ≠ None).
Proof.
  simpl. unfold PaymentsTableMixin.get_invoice_table.
  destruct (get_payment_table customer) as [[ivs|] [err|]]; simpl;
    try (split; [discriminate | by intros raw [= <-]]).
  destruct (comprehension _ ivs) as [rows|e] eqn:E; simpl.
  - split; [|discriminate]. intros rows' [= <-]. split; [done|].
    exists ivs. split; [done|]. apply comprehension_Ok in E.
    eapply Forall2_impl; [exact E|]. intros iv row. apply invoice_row_Ok.
  - split; [discriminate | by intros raw [= <-]].
Qed.

(** X19: What the member is told when the table cannot be built.  An error of
    the wrapper is replaced by the fixed generic message.  Whatever is
    raised while the rows are built is reported with the text of the
    exception itself, that of the first failing invoice: the name of a
    key the invoice lacks, the missing-description text, the text for a
    subscription line without a plan or without a period, the overflow of
    the division, the unknown currency with that invoice's currency code,
    or what the date formatter raised. *)
Theorem get_invoice_table_error_text
    (get_payment_table : string → option (list PaymentsTableMixin.Invoice) * option string)
    (date_format : Z → string → result string) (customer : string) :
  let out := PaymentsTableMixin.get_invoice_table get_payment_table date_format customer in
  (∀ raw provider_text, get_payment_table customer = (raw, Some provider_text) →
     out = (PaymentsTableMixin.RawInvoices raw, Some PaymentsTableMixin.GENERIC_ERROR))
  ∧ (∀ invoices e, get_payment_table customer = (Some invoices, None) →
       out.2 = Some e →
       out.1 = PaymentsTableMixin.RawInvoices (Some invoices)
       ∧ ∃ before iv after,
           invoices = (before ++ iv :: after)%list
           ∧ Forall (λ iv, raises (PaymentsTableMixin.invoice_row date_format iv) = false)
               before
           ∧ PaymentsTableMixin.invoice_row date_format iv = Raise e
           ∧ (e ∈ ["'lines'"; "'date'"; "'total'"; "'paid'"; "'closed'"; "'upcoming'"]
              ∨ e = "Non-subscription without description"
              ∨ e = "'NoneType' object has no attribute 'name'"
              ∨ e = "'NoneType' object has no attribute 'start'"
              ∨ e = "integer division result too large for a float"
              ∨ (∃ amount cur, PaymentsTableMixin.iv_total iv = Some (amount, cur)
                               ∧ e = "unknown currency " ++ cur)
              ∨ (∃ epoch format, date_format epoch format = Raise e)))
  ∧ (get_payment_table customer = (None, None) →
     out = (PaymentsTableMixin.RawInvoices None,
            Some "'NoneType' object is not iterable")).
Proof.
  simpl. unfold PaymentsTableMixin.get_invoice_table. split; [|split].
  - by intros raw provider_text ->.
  - intros invoices e ->. simpl.
    destruct (comprehension _ invoices) as [rows|e'] eqn:E; simpl; [discriminate|].
    intros [= ->]. split; [done|].
    apply comprehension_Raise in E as (before & iv & after & -> & Hok & Hiv).
    exists before, iv, after. split; [done|]. split; [done|]. split; [done|].
    by apply (invoice_row_Raise date_format).
  - by intros ->.
Qed.

Lemma get_invoice_table_error_text_witness :
  PaymentsTableMixin.get_invoice_table
    (λ _, (None, Some "Connection refused")) example_date_format "cus_1"
  = (PaymentsTableMixin.RawInvoices None, Some PaymentsTableMixin.GENERIC_ERROR)
  ∧ PaymentsTableMixin.get_invoice_table
      (λ _, (None, None)) example_date_format "cus_1"
    = (PaymentsTableMixin.RawInvoices None, Some "'NoneType' object is not iterable").
Proof.
  split.
  - exact (proj1 (get_invoice_table_error_text
                    (λ _, (None, Some "Connection refused")) example_date_format
                    "cus_1") None "Connection refused" eq_refl).
  - exact (proj2 (proj2 (get_invoice_table_error_text
                           (λ _, (None, None)) example_date_format "cus_1"))
             eq_refl).
Defined.

(** The text the member sees for a table with an invoice in pounds, with
    an invoice dated beyond the year 9999, and with an invoice without
    lines. *)
Lemma get_invoice_table_error_examples :
  PaymentsTableMixin.get_invoice_table
    (λ _, (Some [example_invoice; sterling_invoice], None)) example_date_format "cus_1"
  = (PaymentsTableMixin.RawInvoices (Some [example_invoice; sterling_invoice]),
     Some "unknown currency gbp")
  ∧ PaymentsTableMixin.get_invoice_table
      (λ _, (Some [example_invoice; far_invoice], None)) example_date_format "cus_1"
    = (PaymentsTableMixin.RawInvoices (Some [example_invoice; far_invoice]),
       Some "year 10000 is out of range").
Proof. split; vm_compute; reflexivity. Qed.

Lemma get_invoice_table_rows_witness :
  (PaymentsTableMixin.get_invoice_table (λ _, (Some [example_invoice], None))
     example_date_format "cus_1")
  = (PaymentsTableMixin.Rows
       [ {| PaymentsTableMixin.row_lines :=
              ["1 x Contributor (day 0 - day 365)"; "Donation"];
            PaymentsTableMixin.row_date := "day 1";
            PaymentsTableMixin.row_total := "39.00 $";
            PaymentsTableMixin.row_paid := true;
            PaymentsTableMixin.row_closed := true;
            PaymentsTableMixin.row_upcoming := false |} ],
     None)
  ∧ (PaymentsTableMixin.get_invoice_table (λ _, (Some [example_invoice], None))
       example_date_format "cus_1").2 = None.
Proof.
  split; [vm_compute; reflexivity|].
  apply (proj1 (get_invoice_table_rows (λ _, (Some [example_invoice], None))
                  example_date_format "cus_1")
           [ {| PaymentsTableMixin.row_lines :=
                  ["1 x Contributor (day 0 - day 365)"; "Donation"];
                PaymentsTableMixin.row_date := "day 1";
                PaymentsTableMixin.row_total := "39.00 $";
                PaymentsTableMixin.row_paid := true;
                PaymentsTableMixin.row_closed := true;
                PaymentsTableMixin.row_upcoming := false |} ]).
  vm_compute. reflexivity.
Defined.

(** ** Webhook ingestion over time *)

Lemma map_refresh_no_match (i snapshot : string) (rows : list PaymentIntent) :
  List.filter (Webhook.has_id i) rows = [] →
  List.map (Webhook.refresh i snapshot) rows = rows.
Proof.
  intros H. apply map_refresh_fixed. rewrite H. constructor.
Qed.

Lemma map_refresh_refresh (i s1 s2 : string) (rows : list PaymentIntent) :
  List.map (Webhook.refresh i s2) (List.map (Webhook.refresh i s1) rows)
  = List.map (Webhook.refresh i s2) rows.
Proof.
  rewrite List.map_map. apply List.map_ext. intros row.
  unfold Webhook.refresh. destruct (Webhook.has_id i row) eqn:E; [|by rewrite E].
  unfold Webhook.has_id in *. simpl. by rewrite E.
Qed.

Lemma ids_map_refresh (i snapshot : string) (rows : list PaymentIntent) :
  stripe_id <$> List.map (Webhook.refresh i snapshot) rows = stripe_id <$> rows.
Proof.
  induction rows as [|row rows IH]; [done|]. simpl.
  f_equal; [|exact IH]. unfold Webhook.refresh.
  by destruct (Webhook.has_id i row).
Qed.

Lemma snapshot_of_app (j : string) (l1 l2 : list PaymentIntent) :
  snapshot_of j (l1 ++ l2)
  = match snapshot_of j l1 with
    | Some s => Some s
    | None => snapshot_of j l2
    end.
Proof.
  induction l1 as [|row l1 IH]; [done|]. simpl.
  by destruct (Webhook.has_id j row).
Qed.

Lemma snapshot_of_no_match (i : string) (rows : list PaymentIntent) :
  List.filter (Webhook.has_id i) rows = [] → snapshot_of i rows = None.
Proof.
  induction rows as [|row rows IH]; [done|]. simpl.
  destruct (Webhook.has_id i row); [discriminate | exact IH].
Qed.

Lemma snapshot_of_map_refresh (i snapshot j : string) (rows : list PaymentIntent) :
  snapshot_of j (List.map (Webhook.refresh i snapshot) rows)
  = if String.eqb i j
    then (λ _, snapshot) <$> snapshot_of j rows
    else snapshot_of j rows.
Proof.
  induction rows as [|row rows IH]; simpl; [by destruct (String.eqb i j)|].
  unfold Webhook.refresh at 1 2. unfold Webhook.has_id in *.
  destruct (String.eqb_spec i j) as [->|Hij].
  - destruct (String.eqb (stripe_id row) j) eqn:E; simpl; rewrite E; [done|].
    exact IH.
  - destruct (String.eqb_spec (stripe_id row) i) as [Hi|Hi]; simpl.
    + destruct (String.eqb_spec (stripe_id row) j) as [Hj|Hj]; [congruence|].
      exact IH.
    + destruct (String.eqb (stripe_id row) j); [done | exact IH].
Qed.

(** What the upsert does to the snapshot of any identifier. *)
Lemma update_or_create_snapshot (i snapshot j : string)
    (rows rows' : list PaymentIntent) :
  Webhook.update_or_create i snapshot rows = Ok rows' →
  snapshot_of j rows' = if String.eqb i j then Some snapshot else snapshot_of j rows.
Proof.
  unfold Webhook.update_or_create.
  destruct (List.filter (Webhook.has_id i) rows) as [|r [|r' rest]] eqn:E;
    intros [= <-].
  - rewrite snapshot_of_app. simpl. unfold Webhook.has_id, Webhook.fresh. simpl.
    destruct (String.eqb_spec i j) as [->|Hij].
    + by rewrite (snapshot_of_no_match j rows E).
    + by destruct (snapshot_of j rows).
  - rewrite snapshot_of_map_refresh.
    destruct (String.eqb_spec i j) as [->|Hij]; [|done].
    destruct (snapshot_of j rows) eqn:S; [done|]. exfalso.
    assert (Hin : In r (List.filter (Webhook.has_id j) rows)) by (rewrite E; by left).
    apply filter_In in Hin as [Hin Hr]. clear E.
    induction rows as [|row rows IH]; [done|]. simpl in S.
    destruct Hin as [->|Hin]; [by rewrite Hr in S|].
    destruct (Webhook.has_id j row); [discriminate | by apply IH].
Qed.

Lemma update_or_create_ids (i snapshot : string) (rows rows' : list PaymentIntent) :
  Webhook.update_or_create i snapshot rows = Ok rows' →
  stripe_id <$> rows' = stripe_id <$> rows
  ∨ (stripe_id <$> rows' = ((stripe_id <$> rows) ++ [i])%list
     ∧ List.filter (Webhook.has_id i) rows = []).
Proof.
  unfold Webhook.update_or_create.
  destruct (List.filter (Webhook.has_id i) rows) as [|r [|r' rest]] eqn:E;
    intros [= <-].
  - right. by rewrite fmap_app.
  - left. apply ids_map_refresh.
Qed.

(** X22: The webhook changes nothing but payment intents, calls no provider
    API, and changes the tables only when it answers 200: on a
    client-error answer, and when the view raises, they are as before. *)
Theorem stripe_webhook_frame (sw : StripeWrapper) (cfg : Settings)
    (request : Webhook.HttpRequest) (d : Db) :
  let run := Webhook.stripe_webhook sw cfg request d in
  memberships (db run) = memberships d
  ∧ subscriptions (db run) = subscriptions d
  ∧ provider_calls (trace run) = []
  ∧ (ret run ≠ Ok 200 → db run = d).
Proof.
  simpl. unfold Webhook.stripe_webhook.
  destruct (make_stripe_event _ _ _ _) as [event error].
  destruct (truthy error); [done|].
  destruct event as [event|]; [|done].
  destruct (String.prefix _ _); [|done].
  destruct (Webhook.update_or_create _ _ _) as [rows|e]; [|done].
  simpl. repeat split; done.
Qed.

(** X23: Stored payment intents are never deleted or reordered: after any
    request the identifiers stored before are still there, in the same
    order, followed by at most one new identifier, which was not stored
    before. *)
Theorem stripe_webhook_keeps_rows (sw : StripeWrapper) (cfg : Settings)
    (request : Webhook.HttpRequest) (d : Db) :
  let before := stripe_id <$> payment_intents d in
  let after :=
    stripe_id <$> payment_intents (db (Webhook.stripe_webhook sw cfg request d)) in
  after = before ∨ ∃ i, after = (before ++ [i])%list ∧ i ∉ before.
Proof.
  simpl. unfold Webhook.stripe_webhook.
  destruct (make_stripe_event _ _ _ _) as [event error].
  destruct (truthy error); [by left|].
  destruct event as [event|]; [|by left].
  destruct (String.prefix _ _); [|by left].
  destruct (Webhook.update_or_create _ _ _) as [rows|e] eqn:E; [|by left].
  simpl. apply update_or_create_ids in E as [E|[E Hnone]]; [by left|].
  right. eexists. split; [exact E|].
  intros Hin. apply list_elem_of_fmap in Hin as (row & Hid & Hrow).
  assert (Hf : In row (List.filter (Webhook.has_id (id (data_object event)))
                         (payment_intents d))).
  { apply filter_In. split; [by apply list_elem_of_In|].
    unfold Webhook.has_id. rewrite <- Hid. apply String.eqb_refl. }
  rewrite Hnone in Hf. destruct Hf.
Qed.

(** X24: A stored snapshot changes only through a verified payment-intent
    event for its identifier, and then it becomes the snapshot derived
    from that event: every other request, and every event for another
    identifier, leaves it as it was. *)
Theorem stripe_webhook_snapshot_change (sw : StripeWrapper) (cfg : Settings)
    (request : Webhook.HttpRequest) (d : Db) (j : string) :
  let run := Webhook.stripe_webhook sw cfg request d in
  snapshot_of j (payment_intents (db run)) ≠ snapshot_of j (payment_intents d) →
  ∃ event error,
    Webhook.verified sw cfg request = (Some event, error)
    ∧ truthy error = false
    ∧ String.prefix "payment_intent." (type event) = true
    ∧ id (data_object event) = j
    ∧ snapshot_of j (payment_intents (db run))
      = Some (_pi_to_dict sw (data_object event)).
Proof.
  simpl. unfold Webhook.stripe_webhook, Webhook.verified.
  destruct (make_stripe_event _ _ _ _) as [event error].
  destruct (truthy error) eqn:Herr; [done|].
  destruct event as [event|]; [|done].
  destruct (String.prefix _ _) eqn:Hprefix; [|done].
  destruct (Webhook.update_or_create _ _ _) as [rows|e] eqn:E; [|done].
  simpl. rewrite (update_or_create_snapshot _ _ j _ _ E).
  destruct (String.eqb_spec (id (data_object event)) j) as [Hj|Hj]; [|done].
  intros _. exists event, error. by repeat split.
Qed.

Lemma stripe_webhook_snapshot_change_witness :
  let request := {| Webhook.body := "{}"; Webhook.HTTP_STRIPE_SIGNATURE := Some "good" |} in
  ∃ event error,
    Webhook.verified example_wrapper example_settings request = (Some event, error)
    ∧ id (data_object event) = "pi_1"
    ∧ snapshot_of "pi_1"
        (payment_intents
           (db (Webhook.stripe_webhook example_wrapper example_settings request
                  empty_db)))
      = Some "{amount: 3900}".
Proof.
  cbv zeta.
  destruct (stripe_webhook_snapshot_change example_wrapper example_settings
              {| Webhook.body := "{}"; Webhook.HTTP_STRIPE_SIGNATURE := Some "good" |}
              empty_db "pi_1" ltac:(discriminate))
    as (event & error & Hver & _ & _ & Hid & Hsnap).
  exists event, error. split; [exact Hver|]. split; [exact Hid|].
  injection Hver as <- _. exact Hsnap.
Defined.

Lemma stripe_webhook_step (sw : StripeWrapper) (cfg : Settings)
    (request : Webhook.HttpRequest) (d : Db) :
  NoDup (stripe_id <$> payment_intents d) →
  let run := Webhook.stripe_webhook sw cfg request d in
  (ret run = Ok 200 ∨ ret run = Ok 400 ∨ ret run = Raise "AttributeError")
  ∧ ∀ j, snapshot_of j (payment_intents (db run))
         = latest_snapshot sw cfg [request] j (snapshot_of j (payment_intents d)).
Proof.
  intros Hnd. simpl. unfold Webhook.stripe_webhook, Webhook.verified.
  destruct (make_stripe_event _ _ _ _) as [event error].
  destruct (truthy error) eqn:Herr; simpl.
  { split; [by eauto|]. intros j. by destruct event. }
  destruct event as [event|]; [|by eauto].
  destruct (String.prefix _ _) eqn:Hprefix; simpl; [|by eauto].
  destruct (update_or_create_at_most_one (id (data_object event))
              (_pi_to_dict sw (data_object event)) (payment_intents d)
              (NoDup_at_most_one _ _ Hnd)) as (rows & Hup & _).
  rewrite Hup. simpl. split; [by eauto|]. intros j.
  apply (update_or_create_snapshot _ _ j _ _ Hup).
Qed.

Lemma latest_snapshot_cons (sw : StripeWrapper) (cfg : Settings)
    (request : Webhook.HttpRequest) (rest : list Webhook.HttpRequest)
    (j : string) (current : option string) :
  latest_snapshot sw cfg (request :: rest) j current
  = latest_snapshot sw cfg rest j (latest_snapshot sw cfg [request] j current).
Proof. reflexivity. Qed.

(** X25: Last write wins, over any sequence of deliveries.  Starting from a
    table without repeated identifiers, after the requests were handled
    in order no identifier is repeated, there is one answer per request,
    none of them the several-rows exception of the upsert, and the
    snapshot stored for every identifier is that of the latest verified
    payment-intent event for it, or the one stored at the start. *)
Theorem deliver_all_latest_snapshot (sw : StripeWrapper) (cfg : Settings)
    (requests : list Webhook.HttpRequest) (d : Db) :
  NoDup (stripe_id <$> payment_intents d) →
  let out := deliver_all sw cfg requests d in
  NoDup (stripe_id <$> payment_intents out.2)
  ∧ length out.1 = length requests
  ∧ Forall (λ r, r = Ok 200 ∨ r = Ok 400 ∨ r = Raise "AttributeError") out.1
  ∧ ∀ j, snapshot_of j (payment_intents out.2)
         = latest_snapshot sw cfg requests j (snapshot_of j (payment_intents d)).
Proof.
  revert d. induction requests as [|request rest IH]; intros d Hnd.
  - simpl. repeat split; [done | constructor].
  - cbn zeta. cbn [deliver_all].
    pose proof (stripe_webhook_NoDup sw cfg request d Hnd) as Hnd'.
    destruct (stripe_webhook_step sw cfg request d Hnd) as [Hret Hsnap].
    specialize (IH _ Hnd').
    destruct (deliver_all sw cfg rest
                (db (Webhook.stripe_webhook sw cfg request d)))
      as [responses d'].
    simpl in *. destruct IH as (Hn & Hlen & Hall & Hlast).
    split; [done|]. split; [by rewrite Hlen|]. split; [by constructor|].
    intros j. rewrite Hlast, Hsnap. done.
Qed.

Lemma deliver_all_latest_snapshot_witness :
  let good := {| Webhook.body := "{}"; Webhook.HTTP_STRIPE_SIGNATURE := Some "good" |} in
  let bad := {| Webhook.body := "{}"; Webhook.HTTP_STRIPE_SIGNATURE := None |} in
  snapshot_of "pi_1"
    (payment_intents
       (deliver_all example_wrapper example_settings [good; bad; good] empty_db).2)
  = Some "{amount: 3900}"
  ∧ (deliver_all example_wrapper example_settings [good; bad; good] empty_db).1
    = [Ok 200; Ok 400; Ok 200].
Proof.
  cbv zeta.
  pose proof (deliver_all_latest_snapshot example_wrapper example_settings
                [ {| Webhook.body := "{}"; Webhook.HTTP_STRIPE_SIGNATURE := Some "good" |};
                  {| Webhook.body := "{}"; Webhook.HTTP_STRIPE_SIGNATURE := None |};
                  {| Webhook.body := "{}"; Webhook.HTTP_STRIPE_SIGNATURE := Some "good" |} ]
                empty_db (NoDup_nil_2 : NoDup (stripe_id <$> payment_intents empty_db)))
    as (_ & _ & _ & Hsnap).
  split; [exact (Hsnap "pi_1") | reflexivity].
Defined.

(** ** The payments landing page *)

(** X26: [get_redirect_url] calls the provider only for a member who has a
    customer, and then once, with the absolute address of the portal page
    as return address.  It returns no URL at all exactly when the wrapper
    answered with neither a URL nor an error; and the only message it ever
    adds is the fixed one, added exactly when the wrapper reported an
    error. *)
Theorem get_redirect_url_outcomes (reverse build_absolute_uri : string → string)
    (get_customer_portal_url : string → string → option string * option string)
    (customer : option string) :
  let out :=
    PaymentsView.get_redirect_url reverse build_absolute_uri
      get_customer_portal_url customer in
  let portal_url := build_absolute_uri (reverse "portal") in
  out.2 = match customer with
          | None => []
          | Some c => [(c, portal_url)]
          end
  ∧ (out.1.1 = None
     ↔ ∃ c, customer = Some c ∧ get_customer_portal_url c portal_url = (None, None))
  ∧ (out.1.2 = [PaymentsView.PORTAL_ERROR]
     ↔ ∃ c e, customer = Some c ∧ (get_customer_portal_url c portal_url).2 = Some e)
  ∧ (out.1.2 = [] ∨ out.1.2 = [PaymentsView.PORTAL_ERROR]).
Proof.
  simpl. unfold PaymentsView.get_redirect_url.
  destruct customer as [c|]; simpl.
  - destruct (get_customer_portal_url c _) as [url [e|]] eqn:E; simpl.
    + split; [done|]. split.
      * split; [discriminate|]. intros (c' & [= <-] & Hc). congruence.
      * split; [|by right]. split; [|done]. intros _. exists c, e. by rewrite E.
    + split; [done|]. split.
      * split; [|intros (c' & [= <-] & Hc); congruence].
        intros Hurl. exists c. by rewrite E, Hurl.
      * split; [|by left]. split; [discriminate|].
        intros (c' & e & [= <-] & He). rewrite E in He. discriminate.
  - split; [done|]. split.
    + split; [discriminate|]. by intros (c & ? & _).
    + split; [|by left]. split; [discriminate|]. by intros (c & e & ? & _).
Qed.

(** ** Totals *)

Lemma format_total_amount_witness :
  PaymentsTableMixin.format_total (PaymentsTableMixin.PyInt 205) "usd"
  = Ok "2.05 $".
Proof.
  exact (proj1 (format_total_amount 205 ltac:(lia))).
Defined.
